(** * Document-Intelligence-Platform: the client page, [src/app/page.js]

    A shallow embedding of the React component [PDFChatInterface]: its
    [useState] cells and its [useRef] cell, the four event handlers
    ([handleFileUpload], [handleProcessFile], [handleTryPrompt],
    [handleSavePrompt]) and the part of the rendered view that depends on
    the state the handlers touch.

    - JavaScript text is a [string] holding its UTF-8 bytes.
    - The values that come back from the backend are JSON values, [JsVal].
    - A handler is a program of the effect monad [Prog]: calls of the state
      setters, [alert], [console.error], [URL.createObjectURL], reads and
      writes of the ref cell, and [await axios.post(...)].
    - [run] executes a program against a [World] (the answers of the
      network and of the browser) and records what it did, and the batches
      of setter calls React flushes in between, as a list of [Event]s. *)

From Stdlib Require Import String Ascii List Bool NArith Lia.
Import ListNotations.
Local Open Scope list_scope.
Local Open Scope string_scope.
Set Warnings "-register-all".

(** ** Text: [String.prototype.trim] on UTF-8 *)

Module JsString.

Local Open Scope N_scope.

Definition code (a : ascii) : N := N_of_ascii a.

(** The code points [trim] removes: ECMAScript WhiteSpace (TAB, VT, FF,
    SP, NBSP, ZWNBSP and the Unicode space separators) and LineTerminator
    (LF, CR, LS, PS). *)
Definition white_space : list N :=
  [ 9; 10; 11; 12; 13; 32; 160; 5760;
    8192; 8193; 8194; 8195; 8196; 8197; 8198; 8199; 8200; 8201; 8202;
    8232; 8233; 8239; 8287; 12288; 65279 ].

(** UTF-8 encoding of a code point. *)
Definition utf8 (cp : N) : list ascii :=
  if cp <? 128 then [ascii_of_N cp]
  else if cp <? 2048 then
    [ascii_of_N (192 + cp / 64); ascii_of_N (128 + cp mod 64)]
  else if cp <? 65536 then
    [ascii_of_N (224 + cp / 4096); ascii_of_N (128 + (cp / 64) mod 64);
     ascii_of_N (128 + cp mod 64)]
  else
    [ascii_of_N (240 + cp / 262144); ascii_of_N (128 + (cp / 4096) mod 64);
     ascii_of_N (128 + (cp / 64) mod 64); ascii_of_N (128 + cp mod 64)].

(** White space of one, two and three bytes, as the byte patterns of the
    code points above. *)
Definition ws1 (a : ascii) : bool :=
  let n := code a in ((9 <=? n) && (n <=? 13)) || (n =? 32).

Definition ws2 (a b : ascii) : bool :=
  (code a =? 194) && (code b =? 160).

Definition ws3 (a b c : ascii) : bool :=
  let x := code a in
  let y := code b in
  let z := code c in
  ((x =? 225) && (y =? 154) && (z =? 128))
  || ((x =? 226) && (y =? 128)
      && (((128 <=? z) && (z <=? 138)) || (z =? 168) || (z =? 169) || (z =? 175)))
  || ((x =? 226) && (y =? 129) && (z =? 159))
  || ((x =? 227) && (y =? 128) && (z =? 128))
  || ((x =? 239) && (y =? 187) && (z =? 191)).

(** Drop the white space a byte list starts with; [p2] and [p3] recognise
    the two- and three-byte characters in the order the bytes are met. *)
Fixpoint strip (p2 : ascii -> ascii -> bool)
    (p3 : ascii -> ascii -> ascii -> bool) (l : list ascii) : list ascii :=
  match l with
  | [] => []
  | a :: l1 =>
      if ws1 a then strip p2 p3 l1
      else match l1 with
           | [] => l
           | b :: l2 =>
               if p2 a b then strip p2 p3 l2
               else match l2 with
                    | [] => l
                    | c :: l3 => if p3 a b c then strip p2 p3 l3 else l
                    end
           end
  end.

(** The byte lists [strip p2 p3] removes whole: a run of white space. *)
Inductive Blank (p2 : ascii -> ascii -> bool)
    (p3 : ascii -> ascii -> ascii -> bool) : list ascii -> Prop :=
| Blank_nil : Blank p2 p3 []
| Blank_1 a l : ws1 a = true -> Blank p2 p3 l -> Blank p2 p3 (a :: l)
| Blank_2 a b l : p2 a b = true -> Blank p2 p3 l -> Blank p2 p3 (a :: b :: l)
| Blank_3 a b c l :
    p3 a b c = true -> Blank p2 p3 l -> Blank p2 p3 (a :: b :: c :: l).

Definition ws2r (b a : ascii) : bool := ws2 a b.
Definition ws3r (c b a : ascii) : bool := ws3 a b c.

Definition trimStart_bytes (l : list ascii) : list ascii := strip ws2 ws3 l.

(** The end of the text is stripped on the reversed bytes. *)
Definition trimEnd_bytes (l : list ascii) : list ascii :=
  rev (strip ws2r ws3r (rev l)).

Definition trim_bytes (l : list ascii) : list ascii :=
  trimEnd_bytes (trimStart_bytes l).

(** [s.trim()] *)
Definition trim (s : string) : string :=
  string_of_list_ascii (trim_bytes (list_ascii_of_string s)).

(** A text is blank when it is the encoding of white space only. *)
Definition blank (s : string) : Prop :=
  exists cps : list N,
    Forall (fun cp => In cp white_space) cps /\
    list_ascii_of_string s = flat_map utf8 cps.

(** [!s]: a string is falsy exactly when it is empty. *)
Definition is_empty (s : string) : bool :=
  match s with EmptyString => true | String _ _ => false end.

(** [s.split(sep)] for a one-character separator: never empty. *)
Fixpoint split (sep : ascii) (s : string) : list string :=
  match s with
  | EmptyString => [EmptyString]
  | String c r =>
      if Ascii.eqb c sep then EmptyString :: split sep r
      else match split sep r with
           | h :: t => String c h :: t
           | [] => [String c EmptyString]
           end
  end.

(** [xs.pop()] on the array [split] returns: its last element. *)
Definition pop (xs : list string) : string := last xs EmptyString.

(** [s1.includes(s2)] as a proposition. *)
Definition contains (s sub : string) : Prop :=
  exists pre post : string, s = (pre ++ sub ++ post)%string.

End JsString.

(** ** Values *)

(** What the page takes from the JavaScript engine without looking inside:
    the Number type (IEEE doubles), of which the page only asks whether a
    number is falsy ([+0], [-0], [NaN]) and how it prints, and
    [String.prototype.toLowerCase], whose Unicode tables are the engine's. *)
Class Host : Type := {
  Num : Type;
  num_falsy : Num -> bool;
  num_to_string : Num -> string;
  toLowerCase : string -> string
}.

(** A host whose numbers are the naturals and whose [toLowerCase] maps the
    letters A-Z. *)
Module DemoHost.

Definition lower_ascii (a : ascii) : ascii :=
  let n := N_of_ascii a in
  if ((65 <=? n) && (n <=? 90))%N then ascii_of_N (n + 32) else a.

Fixpoint lower (s : string) : string :=
  match s with
  | EmptyString => EmptyString
  | String a r => String (lower_ascii a) (lower r)
  end.

Definition digit (n : N) : ascii := ascii_of_N (48 + n).

Fixpoint digits (fuel : nat) (n : N) (acc : string) : string :=
  match fuel with
  | O => acc
  | S fuel' =>
      let acc' := String (digit (n mod 10)) acc in
      if (n / 10 =? 0)%N then acc' else digits fuel' (n / 10) acc'
  end.

Definition print (n : N) : string := digits (S (N.to_nat (N.log2 n))) n "".

Definition host : Host :=
  {| Num := N;
     num_falsy := fun n => (n =? 0)%N;
     num_to_string := print;
     toLowerCase := lower |}.

End DemoHost.

Section Model.

Context {host : Host}.

(** A JavaScript value as the page meets it: [undefined] or a JSON value.
    An object is its properties in insertion order. *)
Inductive JsVal : Type :=
| JUndefined
| JNull
| JBool (b : bool)
| JNum (n : Num)
| JStr (s : string)
| JArr (items : list JsVal)
| JObj (props : list (string * JsVal)).

(** ToBoolean *)
Definition truthy (v : JsVal) : bool :=
  match v with
  | JUndefined | JNull => false
  | JBool b => b
  | JNum n => negb (num_falsy n)
  | JStr s => negb (JsString.is_empty s)
  | JArr _ | JObj _ => true
  end.

(** [a || b] *)
Definition or_else (a b : JsVal) : JsVal := if truthy a then a else b.

(** [v === s] for a string literal [s] *)
Definition strict_eq_str (v : JsVal) (s : string) : bool :=
  match v with
  | JStr t => String.eqb t s
  | _ => false
  end.

(** An exception value: what [console.error] prints and what
    [error.message] reads. *)
Record JsError : Type := { err_name : string; message : string }.

(** The object has a property of its own under this name. *)
Fixpoint has_own (name : string) (props : list (string * JsVal)) : bool :=
  match props with
  | [] => false
  | (k, _) :: rest => String.eqb k name || has_own name rest
  end.

Definition cannot_convert : JsError :=
  {| err_name := "TypeError";
     message := "Cannot convert object to primitive value" |}.

(** ToString, as string concatenation applies it to its operand. An array
    prints its items joined by commas, left to right, [null] and
    [undefined] items as nothing. A plain object prints as
    [[object Object]] through [Object.prototype.toString], unless it has a
    property [toString] of its own: that property shadows the method, a
    JSON value cannot be called, [valueOf] does not give a primitive
    either, and the conversion throws. *)
Fixpoint to_string (v : JsVal) : string + JsError :=
  match v with
  | JUndefined => inl "undefined"
  | JNull => inl "null"
  | JBool true => inl "true"
  | JBool false => inl "false"
  | JNum n => inl (num_to_string n)
  | JStr s => inl s
  | JArr items =>
      (fix join (l : list JsVal) : string + JsError :=
         match l with
         | [] => inl ""
         | x :: r =>
             match (match x with
                    | JUndefined | JNull => inl ""
                    | _ => to_string x
                    end) with
             | inr e => inr e
             | inl sx =>
                 match r with
                 | [] => inl sx
                 | _ :: _ =>
                     match join r with
                     | inl sr => inl (sx ++ "," ++ sr)
                     | inr e => inr e
                     end
                 end
             end
         end) items
  | JObj props =>
      if has_own "toString" props then inr cannot_convert
      else inl "[object Object]"
  end.

(** Own property of an object, [undefined] when there is none. *)
Fixpoint lookup (name : string) (props : list (string * JsVal)) : JsVal :=
  match props with
  | [] => JUndefined
  | (k, v) :: rest => if String.eqb k name then v else lookup name rest
  end.

Definition type_error (base : string) (name : string) : JsError :=
  {| err_name := "TypeError";
     message := "Cannot read properties of " ++ base
                ++ " (reading '" ++ name ++ "')" |}.

(** [v.name] for the property names the page reads ([status], [metadata],
    [structured_markdown], [generated_json], [suggested_prompt],
    [message], [result], [layout]): none of them is defined on a built-in
    prototype, so only an object can have one; reading a property of
    [null] or [undefined] throws. *)
Definition get_prop (v : JsVal) (name : string) : JsVal + JsError :=
  match v with
  | JUndefined => inr (type_error "undefined" name)
  | JNull => inr (type_error "null" name)
  | JObj props => inl (lookup name props)
  | JBool _ | JNum _ | JStr _ | JArr _ => inl JUndefined
  end.

(** ** The component's state *)

(** The [File] the picker hands over: its name and the blob it stands for. *)
Record File : Type := { file_name : string; file_blob : N }.

(** The [useState] cells, in the order of their declaration. *)
Record State : Type := {
  schemaJson : string;
  metadata : JsVal;
  description : JsVal;
  generatedJson : JsVal;
  suggestedPrompt : JsVal;
  userPrompt : string;
  promptResult : JsVal;
  pdfUrl : option string;
  fileType : string;
  loading : bool
}.

Definition initial_state : State :=
  {| schemaJson := "";
     metadata := JObj [];
     description := JStr "";
     generatedJson := JObj [];
     suggestedPrompt := JStr "";
     userPrompt := "";
     promptResult := JNull;
     pdfUrl := None;
     fileType := "";
     loading := false |}.

(** A call of one of the setters. *)
Inductive Update : Type :=
| SetSchemaJson (s : string)
| SetMetadata (v : JsVal)
| SetDescription (v : JsVal)
| SetGeneratedJson (v : JsVal)
| SetSuggestedPrompt (v : JsVal)
| SetUserPrompt (s : string)
| SetPromptResult (v : JsVal)
| SetPdfUrl (u : option string)
| SetFileType (s : string)
| SetLoading (b : bool).

Definition apply_update (s : State) (u : Update) : State :=
  match u with
  | SetSchemaJson x =>
      {| schemaJson := x; metadata := metadata s; description := description s;
         generatedJson := generatedJson s; suggestedPrompt := suggestedPrompt s;
         userPrompt := userPrompt s; promptResult := promptResult s;
         pdfUrl := pdfUrl s; fileType := fileType s; loading := loading s |}
  | SetMetadata x =>
      {| schemaJson := schemaJson s; metadata := x; description := description s;
         generatedJson := generatedJson s; suggestedPrompt := suggestedPrompt s;
         userPrompt := userPrompt s; promptResult := promptResult s;
         pdfUrl := pdfUrl s; fileType := fileType s; loading := loading s |}
  | SetDescription x =>
      {| schemaJson := schemaJson s; metadata := metadata s; description := x;
         generatedJson := generatedJson s; suggestedPrompt := suggestedPrompt s;
         userPrompt := userPrompt s; promptResult := promptResult s;
         pdfUrl := pdfUrl s; fileType := fileType s; loading := loading s |}
  | SetGeneratedJson x =>
      {| schemaJson := schemaJson s; metadata := metadata s; description := description s;
         generatedJson := x; suggestedPrompt := suggestedPrompt s;
         userPrompt := userPrompt s; promptResult := promptResult s;
         pdfUrl := pdfUrl s; fileType := fileType s; loading := loading s |}
  | SetSuggestedPrompt x =>
      {| schemaJson := schemaJson s; metadata := metadata s; description := description s;
         generatedJson := generatedJson s; suggestedPrompt := x;
         userPrompt := userPrompt s; promptResult := promptResult s;
         pdfUrl := pdfUrl s; fileType := fileType s; loading := loading s |}
  | SetUserPrompt x =>
      {| schemaJson := schemaJson s; metadata := metadata s; description := description s;
         generatedJson := generatedJson s; suggestedPrompt := suggestedPrompt s;
         userPrompt := x; promptResult := promptResult s;
         pdfUrl := pdfUrl s; fileType := fileType s; loading := loading s |}
  | SetPromptResult x =>
      {| schemaJson := schemaJson s; metadata := metadata s; description := description s;
         generatedJson := generatedJson s; suggestedPrompt := suggestedPrompt s;
         userPrompt := userPrompt s; promptResult := x;
         pdfUrl := pdfUrl s; fileType := fileType s; loading := loading s |}
  | SetPdfUrl x =>
      {| schemaJson := schemaJson s; metadata := metadata s; description := description s;
         generatedJson := generatedJson s; suggestedPrompt := suggestedPrompt s;
         userPrompt := userPrompt s; promptResult := promptResult s;
         pdfUrl := x; fileType := fileType s; loading := loading s |}
  | SetFileType x =>
      {| schemaJson := schemaJson s; metadata := metadata s; description := description s;
         generatedJson := generatedJson s; suggestedPrompt := suggestedPrompt s;
         userPrompt := userPrompt s; promptResult := promptResult s;
         pdfUrl := pdfUrl s; fileType := x; loading := loading s |}
  | SetLoading x =>
      {| schemaJson := schemaJson s; metadata := metadata s; description := description s;
         generatedJson := generatedJson s; suggestedPrompt := suggestedPrompt s;
         userPrompt := userPrompt s; promptResult := promptResult s;
         pdfUrl := pdfUrl s; fileType := fileType s; loading := x |}
  end.

(** The four result fields of a process call. *)
Definition results (s : State) : JsVal * JsVal * JsVal * JsVal :=
  (metadata s, description s, generatedJson s, suggestedPrompt s).

End Model.

(** ** Effects *)

Section Effects.

Context {host : Host}.

(** What [axios.post] is given. *)
Inductive FormValue : Type :=
| FormFile (f : File)
| FormText (s : string).

Inductive Body : Type :=
| FormData (entries : list (string * FormValue))
| Json (v : JsVal).

Record Request : Type := {
  url : string;
  body : Body;
  headers : list (string * string)
}.

(** How the promise of [axios.post] settles: fulfilled with a response
    whose [data] is the parsed body, or rejected (no connection, or a
    status outside 2xx) with an error. *)
Inductive Outcome : Type :=
| Resolved (data : JsVal)
| Rejected (e : JsError).

(** A handler's body: what it does to the world around it, step by step.
    [Throw] is an exception on its way out. *)
Inductive Prog (A : Type) : Type :=
| Ret (a : A)
| Throw (e : JsError)
| SetState (u : Update) (k : Prog A)
| ReadRef (k : option File -> Prog A)
| WriteRef (f : File) (k : Prog A)
| Alert (msg : string) (k : Prog A)
| ConsoleError (e : JsError) (k : Prog A)
| CreateObjectURL (f : File) (k : string -> Prog A)
| AwaitPost (r : Request) (k : Outcome -> Prog A).

Arguments Ret {A} a.
Arguments Throw {A} e.
Arguments SetState {A} u k.
Arguments ReadRef {A} k.
Arguments WriteRef {A} f k.
Arguments Alert {A} msg k.
Arguments ConsoleError {A} e k.
Arguments CreateObjectURL {A} f k.
Arguments AwaitPost {A} r k.

Fixpoint bind {A B : Type} (p : Prog A) (f : A -> Prog B) : Prog B :=
  match p with
  | Ret a => f a
  | Throw e => Throw e
  | SetState u k => SetState u (bind k f)
  | ReadRef k => ReadRef (fun x => bind (k x) f)
  | WriteRef x k => WriteRef x (bind k f)
  | Alert m k => Alert m (bind k f)
  | ConsoleError e k => ConsoleError e (bind k f)
  | CreateObjectURL x k => CreateObjectURL x (fun u => bind (k u) f)
  | AwaitPost r k => AwaitPost r (fun o => bind (k o) f)
  end.

(** [try { p } catch (e) { h e }] *)
Fixpoint try_catch {A : Type} (p : Prog A) (h : JsError -> Prog A) : Prog A :=
  match p with
  | Ret a => Ret a
  | Throw e => h e
  | SetState u k => SetState u (try_catch k h)
  | ReadRef k => ReadRef (fun x => try_catch (k x) h)
  | WriteRef x k => WriteRef x (try_catch k h)
  | Alert m k => Alert m (try_catch k h)
  | ConsoleError e k => ConsoleError e (try_catch k h)
  | CreateObjectURL x k => CreateObjectURL x (fun u => try_catch (k u) h)
  | AwaitPost r k => AwaitPost r (fun o => try_catch (k o) h)
  end.

(** [try { p } finally { f }]: [f] runs whichever way [p] ends, and the
    way [p] ended stands unless [f] itself throws. *)
Fixpoint try_finally {A : Type} (p : Prog A) (f : Prog unit) : Prog A :=
  match p with
  | Ret a => bind f (fun _ => Ret a)
  | Throw e => bind f (fun _ => Throw e)
  | SetState u k => SetState u (try_finally k f)
  | ReadRef k => ReadRef (fun x => try_finally (k x) f)
  | WriteRef x k => WriteRef x (try_finally k f)
  | Alert m k => Alert m (try_finally k f)
  | ConsoleError e k => ConsoleError e (try_finally k f)
  | CreateObjectURL x k => CreateObjectURL x (fun u => try_finally (k u) f)
  | AwaitPost r k => AwaitPost r (fun o => try_finally (k o) f)
  end.

Definition set_state (u : Update) : Prog unit := SetState u (Ret tt).
Definition read_ref : Prog (option File) := ReadRef (fun x => Ret x).
Definition write_ref (f : File) : Prog unit := WriteRef f (Ret tt).
Definition alert (msg : string) : Prog unit := Alert msg (Ret tt).
Definition console_error (e : JsError) : Prog unit := ConsoleError e (Ret tt).
Definition createObjectURL (f : File) : Prog string :=
  CreateObjectURL f (fun u => Ret u).

(** [(await axios.post(url, body, config)).data]: a rejected promise
    throws at the [await]. *)
Definition axios_post (r : Request) : Prog JsVal :=
  AwaitPost r (fun o =>
    match o with
    | Resolved data => Ret data
    | Rejected e => Throw e
    end).

(** [v.name] inside a handler. *)
Definition prop (v : JsVal) (name : string) : Prog JsVal :=
  match get_prop v name with
  | inl x => Ret x
  | inr e => Throw e
  end.

End Effects.

Arguments Prog {host} A.
Arguments Ret {host A} a.
Arguments Throw {host A} e.
Arguments SetState {host A} u k.
Arguments ReadRef {host A} k.
Arguments WriteRef {host A} f k.
Arguments Alert {host A} msg k.
Arguments ConsoleError {host A} e k.
Arguments CreateObjectURL {host A} f k.
Arguments AwaitPost {host A} r k.

Declare Scope prog_scope.
Delimit Scope prog_scope with prog.
Notation "x <- c ;; k" := (bind c (fun x => k))
  (at level 100, c at next level, right associativity) : prog_scope.
Notation "c ;; k" := (bind c (fun _ => k))
  (at level 100, right associativity) : prog_scope.

(** ** The handlers *)

Section Handlers.

Context {host : Host}.

Local Open Scope prog_scope.

Definition process_url : string := "http://localhost:8000/process-document/".
Definition try_url : string := "http://localhost:8000/try-prompt/".
Definition save_url : string := "http://localhost:8000/save-prompt/".

Definition alert_no_file : string := "❌ Please upload a file first.".
Definition alert_no_schema : string :=
  "❌ Please provide schema JSON in the textarea.".
Definition alert_missing : string := "❌ Missing prompt or layout".
Definition alert_saved : string := "✅ Prompt saved to Supabase!".
Definition alert_save_failed : string := "❌ Failed to save prompt".

(** ["❌ Error: " + response.data.message], the message already turned
    into text. *)
Definition alert_error (text : string) : string := "❌ Error: " ++ text.

(** The text of a value inside a handler; the conversion can throw. *)
Definition printed (v : JsVal) : Prog string :=
  match to_string v with
  | inl text => Ret text
  | inr e => Throw e
  end.

(** ["❌ API call failed: " + error.message] *)
Definition alert_failed (e : JsError) : string :=
  "❌ API call failed: " ++ message e.

(** [handleFileUpload]; [files] is [event.target.files]. *)
Definition handleFileUpload (files : list File) : Prog unit :=
  match nth_error files 0 with
  | Some file =>
      write_ref file ;;
      let ext :=
        toLowerCase (JsString.pop (JsString.split "." (file_name file))) in
      set_state (SetFileType ext) ;;
      if String.eqb ext "pdf" then
        u <- createObjectURL file ;;
        set_state (SetPdfUrl (Some u))
      else
        set_state (SetPdfUrl None)
  | None => Ret tt
  end.

(** What [formData.append(name, uploadedFile.current)] appends. *)
Definition form_value (cur : option File) : FormValue :=
  match cur with
  | Some f => FormFile f
  | None => FormText "null"
  end.

Definition process_request (cur : option File) (schema : string)
  : Request :=
  {| url := process_url;
     body := FormData [("file", form_value cur);
                       ("schema_json", FormText schema)];
     headers := [("Content-Type", "multipart/form-data")] |}.

(** [handleProcessFile], in the render whose state is [s]. *)
Definition handleProcessFile (s : State) : Prog unit :=
  cur <- read_ref ;;
  match cur with
  | None => alert alert_no_file
  | Some _ =>
      if JsString.is_empty (JsString.trim (schemaJson s)) then
        alert alert_no_schema
      else
        try_finally
          (try_catch
             (set_state (SetLoading true) ;;
              cur' <- read_ref ;;
              data <- axios_post (process_request cur' (schemaJson s)) ;;
              status <- prop data "status" ;;
              if strict_eq_str status "success" then
                m <- prop data "metadata" ;;
                set_state (SetMetadata m) ;;
                d <- prop data "structured_markdown" ;;
                set_state (SetDescription d) ;;
                g <- prop data "generated_json" ;;
                set_state (SetGeneratedJson g) ;;
                p <- prop data "suggested_prompt" ;;
                set_state (SetSuggestedPrompt (or_else p (JStr "")))
              else
                msg <- prop data "message" ;;
                text <- printed msg ;;
                alert (alert_error text))
             (fun error =>
                console_error error ;;
                alert (alert_failed error)))
          (set_state (SetLoading false))
  end.

Definition try_request (s : State) : Request :=
  {| url := try_url;
     body := Json (JObj [("prompt", JStr (userPrompt s));
                         ("structured_markdown", description s)]);
     headers := [] |}.

Definition try_failed : JsVal := JObj [("error", JStr "Failed to try prompt")].

(** [handleTryPrompt] *)
Definition handleTryPrompt (s : State) : Prog unit :=
  if JsString.is_empty (JsString.trim (userPrompt s)) then Ret tt
  else
    try_catch
      (data <- axios_post (try_request s) ;;
       r <- prop data "result" ;;
       set_state (SetPromptResult r))
      (fun err =>
         console_error err ;;
         set_state (SetPromptResult try_failed)).

Definition save_request (layout : JsVal) (s : State) : Request :=
  {| url := save_url;
     body := Json (JObj [("layout", layout); ("prompt", JStr (userPrompt s))]);
     headers := [] |}.

(** [handleSavePrompt]; the test [!userPrompt.trim() || !metadata.layout]
    reads [metadata.layout] only when the prompt is not blank, and it does
    so outside the [try]. *)
Definition handleSavePrompt (s : State) : Prog unit :=
  missing <-
    (if JsString.is_empty (JsString.trim (userPrompt s)) then Ret true
     else l <- prop (metadata s) "layout" ;; Ret (negb (truthy l))) ;;
  if (missing : bool) then alert alert_missing
  else
    try_catch
      (l <- prop (metadata s) "layout" ;;
       _ <- axios_post (save_request l s) ;;
       alert alert_saved)
      (fun err =>
         console_error err ;;
         alert alert_save_failed).

End Handlers.

(** ** Running a handler *)

Section Runtime.

Context {host : Host}.

(** What the page holds between events: the state in the [useState] cells
    and the ref cell [uploadedFile.current]. *)
Record Store : Type := {
  view : State;
  uploadedFile : option File
}.

Definition initial_store : Store :=
  {| view := initial_state; uploadedFile := None |}.

(** Everything a handler does that can be seen from outside, in order.
    [EvFlush s] is React taking up the setter calls queued so far: [s] is
    the state they yield, the one the component function is called with
    next. What that call makes of [s] is not part of the event: React may
    skip it when no cell has changed, and it throws where the JSX does
    (see [render_error]). *)
Inductive Event : Type :=
| EvSet (u : Update)
| EvWriteRef (f : File)
| EvAlert (msg : string)
| EvConsoleError (e : JsError)
| EvCreateObjectURL (f : File) (u : string)
| EvPost (r : Request)
| EvFlush (s : State).

(** The answers of the outside: the network and the browser. *)
Record World : Type := {
  net : Request -> Outcome;
  object_url : File -> string
}.

Definition set_ref (f : File) (st : Store) : Store :=
  {| view := view st; uploadedFile := Some f |}.

(** React 18 batches the setter calls of one synchronous stretch of code
    (an event handler up to its first [await], or the code between two
    [await]s) and applies them together when the stretch ends; the page is
    a client component of the Next.js app router, which runs on React 18
    or later. [pending] holds the calls of the stretch, oldest first; with
    none there is nothing to flush. *)
Definition flush (st : Store) (pending : list Update) : list Event * Store :=
  match pending with
  | [] => ([], st)
  | _ :: _ =>
      let s' := fold_left apply_update pending (view st) in
      ([EvFlush s'], {| view := s'; uploadedFile := uploadedFile st |})
  end.

Record Run : Type := {
  trace : list Event;
  final : Store;
  uncaught : option JsError
}.

Definition finish (st : Store) (pending : list Update) (e : option JsError)
  : Run :=
  let (evs, st') := flush st pending in
  {| trace := evs; final := st'; uncaught := e |}.

Definition before (evs : list Event) (r : Run) : Run :=
  {| trace := (evs ++ trace r)%list; final := final r;
     uncaught := uncaught r |}.

(** The handler body [p] from start to end. The stretch of code before an
    [await] ends with the request on its way, and its setter calls are
    flushed while the handler is suspended. An exception nobody caught
    ends the handler too (its promise is rejected). *)
Fixpoint exec (w : World) (p : Prog unit) (st : Store)
    (pending : list Update) : Run :=
  match p with
  | Ret _ => finish st pending None
  | Throw e => finish st pending (Some e)
  | SetState u k => before [EvSet u] (exec w k st (pending ++ [u])%list)
  | ReadRef k => exec w (k (uploadedFile st)) st pending
  | WriteRef f k => before [EvWriteRef f] (exec w k (set_ref f st) pending)
  | Alert m k => before [EvAlert m] (exec w k st pending)
  | ConsoleError e k => before [EvConsoleError e] (exec w k st pending)
  | CreateObjectURL f k =>
      before [EvCreateObjectURL f (object_url w f)]
             (exec w (k (object_url w f)) st pending)
  | AwaitPost r k =>
      let (evs, st') := flush st pending in
      before (EvPost r :: evs) (exec w (k (net w r)) st' [])
  end.

Definition run (w : World) (p : Prog unit) (st : Store) : Run :=
  exec w p st [].

(** Calling a handler of the current render. *)
Definition invoke (w : World) (h : State -> Prog unit) (st : Store) : Run :=
  run w (h (view st)) st.

(** *** Reading a trace *)

Definition requests (t : list Event) : list Request :=
  flat_map (fun e => match e with EvPost r => [r] | _ => [] end) t.

Definition alerts (t : list Event) : list string :=
  flat_map (fun e => match e with EvAlert m => [m] | _ => [] end) t.

Definition flushes (t : list Event) : list State :=
  flat_map (fun e => match e with EvFlush s => [s] | _ => [] end) t.

Definition updates (t : list Event) : list Update :=
  flat_map (fun e => match e with EvSet u => [u] | _ => [] end) t.

(** *** The view *)

(** The submit button as the JSX writes it: [disabled={loading}] and its
    label. *)
Definition submit_disabled (s : State) : bool := loading s.

Definition submit_label (s : State) : string :=
  if loading s then "Processing..." else "Process File".

(** The test of [{promptResult && (...)}], by which the JSX includes the
    result panel of the chat column. *)
Definition result_panel_shown (s : State) : bool := truthy (promptResult s).

(** *** Reading a response *)

(** [data.name] where reading it does not throw. *)
Definition field (data : JsVal) (name : string) : JsVal :=
  match get_prop data name with
  | inl v => v
  | inr _ => JUndefined
  end.

(** [response.data.status === "success"] is evaluated and holds. *)
Definition succeeded (data : JsVal) : bool :=
  match get_prop data "status" with
  | inl status => strict_eq_str status "success"
  | inr _ => false
  end.

(** [response.data.status === "success"] is evaluated and does not hold:
    the response carries another status, or none. *)
Definition declined (data : JsVal) : bool :=
  match get_prop data "status" with
  | inl status => negb (strict_eq_str status "success")
  | inr _ => false
  end.

(** The state a successful process call leaves: the four result fields
    taken from the response, the loading flag down. *)
Definition processed (s : State) (data : JsVal) : State :=
  {| schemaJson := schemaJson s;
     metadata := field data "metadata";
     description := field data "structured_markdown";
     generatedJson := field data "generated_json";
     suggestedPrompt := or_else (field data "suggested_prompt") (JStr "");
     userPrompt := userPrompt s;
     promptResult := promptResult s;
     pdfUrl := pdfUrl s;
     fileType := fileType s;
     loading := false |}.

(** The run of [handleProcessFile] once an exception [e] reaches its
    [catch]. *)
Definition process_caught (st : Store) (f : File) (e : JsError) : Run :=
  {| trace :=
       [EvSet (SetLoading true);
        EvPost (process_request (Some f) (schemaJson (view st)));
        EvFlush (apply_update (view st) (SetLoading true));
        EvConsoleError e;
        EvAlert (alert_failed e);
        EvSet (SetLoading false);
        EvFlush (apply_update (view st) (SetLoading false))];
     final := {| view := apply_update (view st) (SetLoading false);
                 uploadedFile := uploadedFile st |};
     uncaught := None |}.

(** The run of [handleTryPrompt] once an exception [e] reaches its
    [catch]. *)
Definition try_caught (st : Store) (e : JsError) : Run :=
  {| trace :=
       [EvPost (try_request (view st));
        EvConsoleError e;
        EvSet (SetPromptResult try_failed);
        EvFlush (apply_update (view st) (SetPromptResult try_failed))];
     final := {| view := apply_update (view st) (SetPromptResult try_failed);
                 uploadedFile := uploadedFile st |};
     uncaught := None |}.

(** [metadata.layout] can be read and is truthy. *)
Definition has_layout (s : State) : bool :=
  match get_prop (metadata s) "layout" with
  | inl l => truthy l
  | inr _ => false
  end.

(** The object literal [{ layout: metadata.layout, prompt: userPrompt }]. *)
Definition save_body (s : State) : Body :=
  Json (JObj [("layout", field (metadata s) "layout");
              ("prompt", JStr (userPrompt s))]).

(** The object literal [{ prompt: userPrompt, structured_markdown:
    description }]. *)
Definition try_body (s : State) : Body :=
  Json (JObj [("prompt", JStr (userPrompt s));
              ("structured_markdown", description s)]).

(** Every [useState] cell but [promptResult]. *)
Definition all_but_promptResult (s : State) :=
  (schemaJson s, metadata s, description s, generatedJson s,
   suggestedPrompt s, userPrompt s, pdfUrl s, fileType s, loading s).

(** *** The page as a machine *)

(** What the user can do to the page. *)
Inductive Action : Type :=
| ChangeSchema (text : string)
| ChangePrompt (text : string)
| SelectFile (files : list File)
| ClickProcess
| ClickTry
| ClickSave.

Definition handler (a : Action) (s : State) : Prog unit :=
  match a with
  | ChangeSchema text => set_state (SetSchemaJson text)
  | ChangePrompt text => set_state (SetUserPrompt text)
  | SelectFile files => handleFileUpload files
  | ClickProcess => handleProcessFile s
  | ClickTry => handleTryPrompt s
  | ClickSave => handleSavePrompt s
  end.

(** The interaction is a process call that the backend answers with
    [status] equal to ["success"]. *)
Definition successful_process (st : Store) (wa : World * Action) : bool :=
  match snd wa with
  | ClickProcess =>
      match uploadedFile st with
      | None => false
      | Some _ =>
          negb (JsString.is_empty (JsString.trim (schemaJson (view st))))
          && match net (fst wa) (process_request (uploadedFile st)
                                                 (schemaJson (view st))) with
             | Resolved data => succeeded data
             | Rejected _ => false
             end
      end
  | _ => false
  end.

(** One interaction, run to its end, answered by the world [fst wa]. *)
Definition interact (st : Store) (wa : World * Action) : Store :=
  final (invoke (fst wa) (handler (snd wa)) st).

(** The stores a session passes through, each interaction finding the
    store the one before left. *)
Fixpoint session (st : Store) (l : list (World * Action)) : Store :=
  match l with
  | [] => st
  | wa :: rest => session (interact st wa) rest
  end.

(** No interaction of the session is a successful process call. *)
Fixpoint no_success (st : Store) (l : list (World * Action)) : bool :=
  match l with
  | [] => true
  | wa :: rest =>
      negb (successful_process st wa) && no_success (interact st wa) rest
  end.

End Runtime.

(** ** The panels of the view *)

Section View.

Context {host : Host}.

(** [String.prototype.toUpperCase], the engine's. *)
Variable toUpperCase : string -> string.

(** [file.name.split(".").pop().toLowerCase()] *)
Definition extension (f : File) : string :=
  toLowerCase (JsString.pop (JsString.split "." (file_name f))).

(** No byte of the text is the separator. *)
Fixpoint free_of (sep : ascii) (s : string) : bool :=
  match s with
  | EmptyString => true
  | String c r => negb (Ascii.eqb c sep) && free_of sep r
  end.

(** What the document preview shows: the [iframe] on the object URL, the
    icon with the upper-cased type over the file name, or the invitation to
    upload. *)
Inductive Preview : Type :=
| PreviewFrame (src : string)
| PreviewIcon (label : string) (name : string)
| PreviewInvite.

(** [fileType === "pdf" && pdfUrl ? ... : uploadedFile.current ? ... : ...];
    the empty string is falsy, as [null] is. *)
Definition preview (st : Store) : Preview :=
  let icon_or_invite :=
    match uploadedFile st with
    | Some f => PreviewIcon (toUpperCase (fileType (view st))) (file_name f)
    | None => PreviewInvite
    end in
  if String.eqb (fileType (view st)) "pdf" then
    match pdfUrl (view st) with
    | Some u => if JsString.is_empty u then icon_or_invite else PreviewFrame u
    | None => icon_or_invite
    end
  else icon_or_invite.

(** [Object.keys(v).length > 0]; [Object.keys] throws on [undefined] and
    [null], lists the indices of an array and of a string, and finds
    nothing in a number or a boolean. *)
Definition has_keys (v : JsVal) : bool + JsError :=
  match v with
  | JUndefined | JNull =>
      inr {| err_name := "TypeError";
             message := "Cannot convert undefined or null to object" |}
  | JBool _ | JNum _ => inl false
  | JStr s => inl (negb (JsString.is_empty s))
  | JArr items => inl (match items with [] => false | _ :: _ => true end)
  | JObj props => inl (match props with [] => false | _ :: _ => true end)
  end.

(** What the extracted-JSON panel shows: the value handed to
    [JSON.stringify(_, null, 2)], or the text ["No JSON extracted yet"]. *)
Inductive JsonPanel : Type :=
| JsonShown (v : JsVal)
| JsonNone.

(** [Object.keys(generatedJson).length > 0 ? JSON.stringify(...) : "..."];
    an exception here is an exception of the render. *)
Definition extracted_panel (s : State) : JsonPanel + JsError :=
  match has_keys (generatedJson s) with
  | inl true => inl (JsonShown (generatedJson s))
  | inl false => inl JsonNone
  | inr e => inr e
  end.

(** The exception the component function throws when it is called with
    state [s], as far as the expressions of its JSX go: of these only
    [Object.keys(generatedJson)] can throw. What React and [ReactMarkdown]
    make of the children they are handed is theirs. *)
Definition render_error (s : State) : option JsError :=
  match extracted_panel s with
  | inl _ => None
  | inr e => Some e
  end.

(** The cells and the ref a process call has no business with. *)
Definition form_cells (st : Store) :=
  (schemaJson (view st), userPrompt (view st), promptResult (view st),
   pdfUrl (view st), fileType (view st), uploadedFile st).

(** The cells the file picker has no business with. *)
Definition all_but_file (s : State) :=
  (schemaJson s, metadata s, description s, generatedJson s,
   suggestedPrompt s, userPrompt s, promptResult s, loading s).

(** The file in the ref cell and the two cells that describe it agree:
    without a file the type is empty and there is no preview URL; with a
    file the type is its extension, and there is a preview URL exactly for
    a PDF. *)
Definition file_consistent (st : Store) : Prop :=
  match uploadedFile st with
  | None => fileType (view st) = "" /\ pdfUrl (view st) = None
  | Some f =>
      fileType (view st) = extension f
      /\ (pdfUrl (view st) <> None <-> extension f = "pdf")
  end.

(** *** The runs of the handlers, by name *)

(** A handler that alerts and returns. *)
Definition alert_only (st : Store) (msg : string) : Run :=
  {| trace := [EvAlert msg]; final := st; uncaught := None |}.

(** A handler that returns at once. *)
Definition nothing_done (st : Store) : Run :=
  {| trace := []; final := st; uncaught := None |}.

(** [handleProcessFile] answered with success. *)
Definition process_stored (st : Store) (f : File) (data : JsVal) : Run :=
  {| trace :=
       [EvSet (SetLoading true);
        EvPost (process_request (Some f) (schemaJson (view st)));
        EvFlush (apply_update (view st) (SetLoading true));
        EvSet (SetMetadata (field data "metadata"));
        EvSet (SetDescription (field data "structured_markdown"));
        EvSet (SetGeneratedJson (field data "generated_json"));
        EvSet (SetSuggestedPrompt
                 (or_else (field data "suggested_prompt") (JStr "")));
        EvSet (SetLoading false);
        EvFlush (processed (view st) data)];
     final := {| view := processed (view st) data;
                 uploadedFile := uploadedFile st |};
     uncaught := None |}.

(** [handleProcessFile] answered with another status, the message of the
    response printing as [text]. *)
Definition process_refused (st : Store) (f : File) (text : string) : Run :=
  {| trace :=
       [EvSet (SetLoading true);
        EvPost (process_request (Some f) (schemaJson (view st)));
        EvFlush (apply_update (view st) (SetLoading true));
        EvAlert (alert_error text);
        EvSet (SetLoading false);
        EvFlush (apply_update (view st) (SetLoading false))];
     final := {| view := apply_update (view st) (SetLoading false);
                 uploadedFile := uploadedFile st |};
     uncaught := None |}.

(** [handleTryPrompt] answered with a response whose [result] is [v]. *)
Definition try_stored (st : Store) (v : JsVal) : Run :=
  {| trace :=
       [EvPost (try_request (view st));
        EvSet (SetPromptResult v);
        EvFlush (apply_update (view st) (SetPromptResult v))];
     final := {| view := apply_update (view st) (SetPromptResult v);
                 uploadedFile := uploadedFile st |};
     uncaught := None |}.

(** [handleSavePrompt] stopped by the exception of [metadata.layout]. *)
Definition save_thrown (st : Store) (e : JsError) : Run :=
  {| trace := []; final := st; uncaught := Some e |}.

(** [handleSavePrompt] with its request answered. *)
Definition save_answered (st : Store) (l : JsVal) : Run :=
  {| trace := [EvPost (save_request l (view st)); EvAlert alert_saved];
     final := st; uncaught := None |}.

(** [handleSavePrompt] with its request rejected. *)
Definition save_refused (st : Store) (l : JsVal) (e : JsError) : Run :=
  {| trace := [EvPost (save_request l (view st)); EvConsoleError e;
               EvAlert alert_save_failed];
     final := st; uncaught := None |}.

(** [handleFileUpload] with a file: the ref, the type, the preview URL. *)
Definition upload_stored (w : World) (st : Store) (f : File) : Run :=
  let url := if String.eqb (extension f) "pdf"
             then Some (object_url w f) else None in
  let s' := apply_update (apply_update (view st) (SetFileType (extension f)))
                         (SetPdfUrl url) in
  {| trace :=
       ([EvWriteRef f; EvSet (SetFileType (extension f))]
        ++ (if String.eqb (extension f) "pdf"
            then [EvCreateObjectURL f (object_url w f)] else [])
        ++ [EvSet (SetPdfUrl url); EvFlush s'])%list;
     final := {| view := s'; uploadedFile := Some f |};
     uncaught := None |}.

(** The three endpoints. *)
Definition endpoints : list string := [process_url; try_url; save_url].

(** The data is a JSON value without properties of its own names: a
    boolean, a number, a string or an array. *)
Definition not_an_object (v : JsVal) : bool :=
  match v with
  | JBool _ | JNum _ | JStr _ | JArr _ => true
  | JUndefined | JNull | JObj _ => false
  end.

End View.

(** ** Sample data *)

Module Sample.

#[local] Existing Instance DemoHost.host.

Definition invoice : File := {| file_name := "Invoice.PDF"; file_blob := 7 |}.

Definition answer (o : Outcome) : World :=
  {| net := fun _ => o; object_url := fun _ => "blob:1" |}.

Definition offline : JsError :=
  {| err_name := "AxiosError"; message := "Network Error" |}.

Definition ok_data : JsVal :=
  JObj [("status", JStr "success");
        ("metadata", JObj [("layout", JStr "inv-1")]);
        ("structured_markdown", JStr "# Invoice");
        ("generated_json", JObj [("order_id", JStr "123")])].

Definition bad_data : JsVal :=
  JObj [("status", JStr "error"); ("message", JStr "bad schema")].

Definition with_schema (schema : string) (f : option File) : Store :=
  {| view := apply_update initial_state (SetSchemaJson schema);
     uploadedFile := f |}.

Definition ready : Store := with_schema "{}" (Some invoice).

Definition done : Store :=
  final (invoke (answer (Resolved ok_data)) handleProcessFile ready).

Definition with_prompt (text : string) (st : Store) : Store :=
  {| view := apply_update (view st) (SetUserPrompt text);
     uploadedFile := uploadedFile st |}.

Definition ok_world : World := answer (Resolved ok_data).
Definition bad_world : World := answer (Resolved bad_data).
Definition down_world : World := answer (Rejected offline).

(** A file is selected, the schema text is three spaces. *)
Definition blank_schema : Store := with_schema "   " (Some invoice).

(** After a successful process call, with the prompt typed in. *)
Definition asking : Store := with_prompt "summarize" done.

(** The prompt typed in, nothing processed yet. *)
Definition early : Store := with_prompt "summarize" ready.

Definition try_world : World :=
  answer (Resolved (JObj [("result", JObj [("ok", JBool true)])])).

(** A response with [status] equal to ["success"] and [metadata] null. *)
Definition null_metadata : JsVal :=
  JObj [("status", JStr "success"); ("metadata", JNull);
        ("structured_markdown", JStr "# Invoice");
        ("generated_json", JObj [])].

Definition stuck : Store :=
  with_prompt "summarize"
    (final (invoke (answer (Resolved null_metadata)) handleProcessFile ready)).

End Sample.

Module Desk.

#[local] Existing Instance DemoHost.host.
Import Sample.

Definition report : File := {| file_name := "Q3.report.DOCX"; file_blob := 9 |}.

(** A response with [status] equal to ["success"] and nothing else. *)
Definition bare_success : JsVal := JObj [("status", JStr "success")].

(** A successful response with a suggestion. *)
Definition full_data : JsVal :=
  JObj [("status", JStr "success");
        ("metadata", JObj [("layout", JStr "inv-1")]);
        ("structured_markdown", JStr "# Invoice");
        ("generated_json", JObj [("order_id", JStr "123")]);
        ("suggested_prompt", JStr "What is the total?")].

(** A successful response whose extraction came back [null]. *)
Definition null_json : JsVal :=
  JObj [("status", JStr "success");
        ("metadata", JObj [("layout", JStr "inv-1")]);
        ("structured_markdown", JStr "# Invoice");
        ("generated_json", JNull)].

(** A refusal whose message is an object with a property [toString]. *)
Definition shadowed_message : JsVal :=
  JObj [("status", JStr "error");
        ("message", JObj [("toString", JNum 1%N)])].

(** A refusal whose message is a number. *)
Definition coded_message : JsVal :=
  JObj [("status", JStr "error"); ("message", JNum 422%N)].

(** A body that is not JSON reaches the page as text. *)
Definition html_page : JsVal := JStr "<html>Bad Gateway</html>".

Definition zero_result : World :=
  answer (Resolved (JObj [("result", JNum 0%N)])).

(** Upper case for the letters a-z. *)
Definition upper_ascii (a : ascii) : ascii :=
  let n := N_of_ascii a in
  if ((97 <=? n) && (n <=? 122))%N then ascii_of_N (n - 32) else a.

Fixpoint upper (s : string) : string :=
  match s with
  | EmptyString => EmptyString
  | String a r => String (upper_ascii a) (upper r)
  end.

(** The backend answers a save with an error report, status 200. *)
Definition grumbling : World :=
  answer (Resolved (JObj [("status", JStr "error")])).

End Desk.

(** * Properties *)

(** ** [trim] removes exactly the white space *)

Module JsStringFacts.

Import JsString.
Local Open Scope N_scope.

Ltac bools H :=
  repeat first
    [ rewrite Bool.orb_true_iff in H
    | rewrite Bool.andb_true_iff in H
    | rewrite N.eqb_eq in H
    | rewrite N.leb_le in H ].

Lemma ascii_of_code (a : ascii) (n : N) : code a = n -> a = ascii_of_N n.
Proof. intros <-. unfold code. now rewrite ascii_N_embedding. Qed.

Lemma ws1_code a : ws1 a = true -> code a < 128.
Proof. unfold ws1. cbv zeta. intros H. bools H. lia. Qed.

Lemma ws2_code a b : ws2 a b = true -> code a = 194 /\ code b = 160.
Proof. unfold ws2. intros H. bools H. exact H. Qed.

Lemma ws3_code a b c :
  ws3 a b c = true -> 225 <= code a /\ 128 <= code c /\ code b <> 194.
Proof. unfold ws3. cbv zeta. intros H. bools H. lia. Qed.

Section Strip.

Variable p2 : ascii -> ascii -> bool.
Variable p3 : ascii -> ascii -> ascii -> bool.
Hypothesis p2_not1 : forall a b, p2 a b = true -> ws1 a = false.
Hypothesis p3_not1 : forall a b c, p3 a b c = true -> ws1 a = false.
Hypothesis p3_not2 : forall a b c, p3 a b c = true -> p2 a b = false.

Lemma Blank_app l1 l2 :
  Blank p2 p3 l1 -> Blank p2 p3 l2 -> Blank p2 p3 (l1 ++ l2)%list.
Proof.
  induction 1; intros H2; cbn [app]; auto using Blank.
Qed.

Lemma strip_Blank l : Blank p2 p3 l -> strip p2 p3 l = [].
Proof.
  induction 1 as [|a l Ha _ IH|a b l Hab _ IH|a b c l Habc _ IH];
    cbn [strip].
  - reflexivity.
  - now rewrite Ha.
  - now rewrite (p2_not1 _ _ Hab), Hab.
  - now rewrite (p3_not1 _ _ _ Habc), (p3_not2 _ _ _ Habc), Habc.
Qed.

Lemma strip_split_fuel (n : nat) : forall l,
  (List.length l <= n)%nat ->
  exists pre, Blank p2 p3 pre /\ l = (pre ++ strip p2 p3 l)%list.
Proof.
  induction n as [|n IH]; intros l Hn.
  - destruct l; [|cbn in Hn; lia]. exists []. split; [constructor|reflexivity].
  - destruct l as [|a l1]; [exists []; split; [constructor|reflexivity]|].
    cbn [strip]. cbn [List.length] in Hn.
    destruct (ws1 a) eqn:Ha.
    { destruct (IH l1) as (pre & Hb & He); [lia|].
      exists (a :: pre). split; [now constructor|].
      cbn [app]. now rewrite <- He. }
    destruct l1 as [|b l2]; [exists []; split; [constructor|reflexivity]|].
    cbn [List.length] in Hn.
    destruct (p2 a b) eqn:Hab.
    { destruct (IH l2) as (pre & Hb & He); [lia|].
      exists (a :: b :: pre). split; [now constructor|].
      cbn [app]. now rewrite <- He. }
    destruct l2 as [|c l3]; [exists []; split; [constructor|reflexivity]|].
    cbn [List.length] in Hn.
    destruct (p3 a b c) eqn:Habc.
    { destruct (IH l3) as (pre & Hb & He); [lia|].
      exists (a :: b :: c :: pre). split; [now constructor|].
      cbn [app]. now rewrite <- He. }
    exists []. split; [constructor|reflexivity].
Qed.

Lemma strip_split l :
  exists pre, Blank p2 p3 pre /\ l = (pre ++ strip p2 p3 l)%list.
Proof. apply (strip_split_fuel (List.length l)). lia. Qed.

Lemma strip_nil_iff l : strip p2 p3 l = [] <-> Blank p2 p3 l.
Proof.
  split; [|apply strip_Blank].
  intros H. destruct (strip_split l) as (pre & Hb & He).
  rewrite H, app_nil_r in He. now subst.
Qed.

Lemma Blank_strip l : Blank p2 p3 (strip p2 p3 l) -> Blank p2 p3 l.
Proof.
  intros H. destruct (strip_split l) as (pre & Hb & He).
  rewrite He. now apply Blank_app.
Qed.

End Strip.

Lemma Blank_rev p2 p3 q2 q3 l :
  (forall a b, p2 a b = q2 b a) ->
  (forall a b c, p3 a b c = q3 c b a) ->
  Blank p2 p3 l -> Blank q2 q3 (rev l).
Proof.
  intros H2 H3.
  induction 1 as [|a l Ha _ IH|a b l Hab _ IH|a b c l Habc _ IH].
  - constructor.
  - cbn [rev]. apply Blank_app; [exact IH|]. constructor; [exact Ha|constructor].
  - cbn [rev]. rewrite <- app_assoc. apply Blank_app; [exact IH|].
    cbn [app]. apply Blank_2; [now rewrite <- H2|constructor].
  - cbn [rev]. rewrite <- !app_assoc. apply Blank_app; [exact IH|].
    cbn [app]. apply Blank_3; [now rewrite <- H3|constructor].
Qed.

Lemma ws2_not1 a b : ws2 a b = true -> ws1 a = false.
Proof.
  intros H. apply ws2_code in H. destruct (ws1 a) eqn:E; [|reflexivity].
  apply ws1_code in E. lia.
Qed.

Lemma ws3_not1 a b c : ws3 a b c = true -> ws1 a = false.
Proof.
  intros H. apply ws3_code in H. destruct (ws1 a) eqn:E; [|reflexivity].
  apply ws1_code in E. lia.
Qed.

Lemma ws3_not2 a b c : ws3 a b c = true -> ws2 a b = false.
Proof.
  intros H. apply ws3_code in H. destruct (ws2 a b) eqn:E; [|reflexivity].
  apply ws2_code in E. lia.
Qed.

Lemma ws2r_not1 a b : ws2r a b = true -> ws1 a = false.
Proof.
  unfold ws2r. intros H. apply ws2_code in H.
  destruct (ws1 a) eqn:E; [|reflexivity]. apply ws1_code in E. lia.
Qed.

Lemma ws3r_not1 a b c : ws3r a b c = true -> ws1 a = false.
Proof.
  unfold ws3r. intros H. apply ws3_code in H.
  destruct (ws1 a) eqn:E; [|reflexivity]. apply ws1_code in E. lia.
Qed.

Lemma ws3r_not2 a b c : ws3r a b c = true -> ws2r a b = false.
Proof.
  unfold ws3r, ws2r. intros H. apply ws3_code in H.
  destruct (ws2 b a) eqn:E; [|reflexivity]. apply ws2_code in E. lia.
Qed.

Lemma trim_bytes_nil_iff l : trim_bytes l = [] <-> Blank ws2 ws3 l.
Proof.
  unfold trim_bytes, trimEnd_bytes, trimStart_bytes. split.
  - intros H.
    apply (f_equal (@rev ascii)) in H. rewrite rev_involutive in H.
    cbn [rev] in H.
    apply (strip_nil_iff _ _ ws2r_not1 ws3r_not1 ws3r_not2) in H.
    apply (Blank_rev ws2r ws3r ws2 ws3) in H; try reflexivity.
    rewrite rev_involutive in H.
    now apply Blank_strip.
  - intros H.
    now rewrite (strip_Blank _ _ ws2_not1 ws3_not1 ws3_not2 _ H).
Qed.

(** Every white-space code point is encoded as one white-space character
    of [strip]. *)
Lemma utf8_Blank cp l :
  In cp white_space -> Blank ws2 ws3 l -> Blank ws2 ws3 (utf8 cp ++ l)%list.
Proof.
  intros Hin Hl. unfold white_space in Hin. cbn [In] in Hin.
  repeat (destruct Hin as [<-|Hin];
          [first [ now apply Blank_1 | now apply Blank_2 | now apply Blank_3 ]|]).
  contradiction.
Qed.

Lemma ws1_utf8 a :
  ws1 a = true -> exists cp, In cp white_space /\ utf8 cp = [a].
Proof.
  intros H. exists (code a). unfold ws1 in H. cbv zeta in H. bools H.
  assert (Hc : code a = 9 \/ code a = 10 \/ code a = 11 \/ code a = 12
               \/ code a = 13 \/ code a = 32) by lia.
  repeat destruct Hc as [Hc|Hc];
    rewrite Hc, (ascii_of_code _ _ Hc);
    (split; [cbn; tauto|reflexivity]).
Qed.

Lemma ws2_utf8 a b :
  ws2 a b = true -> exists cp, In cp white_space /\ utf8 cp = [a; b].
Proof.
  intros H. apply ws2_code in H. destruct H as [Ha Hb].
  exists 160. rewrite (ascii_of_code _ _ Ha), (ascii_of_code _ _ Hb).
  split; [cbn; tauto|reflexivity].
Qed.

Lemma ws3_utf8 a b c :
  ws3 a b c = true -> exists cp, In cp white_space /\ utf8 cp = [a; b; c].
Proof.
  intros H. unfold ws3 in H. cbv zeta in H. bools H.
  assert (Hc :
    (code a = 225 /\ code b = 154 /\ code c = 128)
    \/ (code a = 226 /\ code b = 128 /\ 128 <= code c <= 138)
    \/ (code a = 226 /\ code b = 128 /\ code c = 168)
    \/ (code a = 226 /\ code b = 128 /\ code c = 169)
    \/ (code a = 226 /\ code b = 128 /\ code c = 175)
    \/ (code a = 226 /\ code b = 129 /\ code c = 159)
    \/ (code a = 227 /\ code b = 128 /\ code c = 128)
    \/ (code a = 239 /\ code b = 187 /\ code c = 191)) by tauto.
  clear H.
  destruct Hc as [(Ha & Hb & Hc)|[(Ha & Hb & Hc)|[(Ha & Hb & Hc)|
    [(Ha & Hb & Hc)|[(Ha & Hb & Hc)|[(Ha & Hb & Hc)|[(Ha & Hb & Hc)|
    (Ha & Hb & Hc)]]]]]]];
    rewrite (ascii_of_code _ _ Ha), (ascii_of_code _ _ Hb).
  - exists 5760. rewrite (ascii_of_code _ _ Hc). split; [cbn; tauto|reflexivity].
  - exists (8064 + code c). split.
    + assert (Hd : code c = 128 \/ code c = 129 \/ code c = 130
                   \/ code c = 131 \/ code c = 132 \/ code c = 133
                   \/ code c = 134 \/ code c = 135 \/ code c = 136
                   \/ code c = 137 \/ code c = 138) by lia.
      repeat destruct Hd as [Hd|Hd]; rewrite Hd; cbn; tauto.
    + assert (Hd : code c = 128 \/ code c = 129 \/ code c = 130
                   \/ code c = 131 \/ code c = 132 \/ code c = 133
                   \/ code c = 134 \/ code c = 135 \/ code c = 136
                   \/ code c = 137 \/ code c = 138) by lia.
      repeat destruct Hd as [Hd|Hd];
        rewrite Hd, (ascii_of_code _ _ Hd); reflexivity.
  - exists 8232. rewrite (ascii_of_code _ _ Hc). split; [cbn; tauto|reflexivity].
  - exists 8233. rewrite (ascii_of_code _ _ Hc). split; [cbn; tauto|reflexivity].
  - exists 8239. rewrite (ascii_of_code _ _ Hc). split; [cbn; tauto|reflexivity].
  - exists 8287. rewrite (ascii_of_code _ _ Hc). split; [cbn; tauto|reflexivity].
  - exists 12288. rewrite (ascii_of_code _ _ Hc). split; [cbn; tauto|reflexivity].
  - exists 65279. rewrite (ascii_of_code _ _ Hc). split; [cbn; tauto|reflexivity].
Qed.

Lemma Blank_iff_white_space l :
  Blank ws2 ws3 l <->
  exists cps, Forall (fun cp => In cp white_space) cps /\ l = flat_map utf8 cps.
Proof.
  split.
  - induction 1 as [|a l Ha _ IH|a b l Hab _ IH|a b c l Habc _ IH].
    + exists []. split; [constructor|reflexivity].
    + destruct IH as (cps & Hf & ->).
      destruct (ws1_utf8 _ Ha) as (cp & Hin & He).
      exists (cp :: cps). split; [now constructor|].
      cbn [flat_map]. now rewrite He.
    + destruct IH as (cps & Hf & ->).
      destruct (ws2_utf8 _ _ Hab) as (cp & Hin & He).
      exists (cp :: cps). split; [now constructor|].
      cbn [flat_map]. now rewrite He.
    + destruct IH as (cps & Hf & ->).
      destruct (ws3_utf8 _ _ _ Habc) as (cp & Hin & He).
      exists (cp :: cps). split; [now constructor|].
      cbn [flat_map]. now rewrite He.
  - intros (cps & Hf & ->).
    induction Hf as [|cp cps Hin _ IH]; [constructor|].
    cbn [flat_map]. now apply utf8_Blank.
Qed.

Lemma string_of_list_nil l : string_of_list_ascii l = EmptyString <-> l = [].
Proof. destruct l; cbn; split; congruence. Qed.

(** [s.trim()] is empty exactly when [s] is white space only. *)
Lemma trim_empty_iff (s : string) : trim s = EmptyString <-> blank s.
Proof.
  unfold trim, blank.
  now rewrite string_of_list_nil, trim_bytes_nil_iff, Blank_iff_white_space.
Qed.

Lemma is_empty_true (s : string) : is_empty s = true <-> s = EmptyString.
Proof. destruct s; cbn; split; congruence. Qed.

(** [!s.trim()] *)
Lemma not_trim_iff (s : string) : is_empty (trim s) = true <-> blank s.
Proof. now rewrite is_empty_true, trim_empty_iff. Qed.

Lemma not_trim_false (s : string) : is_empty (trim s) = false <-> ~ blank s.
Proof.
  rewrite <- not_trim_iff. destruct (is_empty (trim s)); split; congruence.
Qed.

Lemma blank_empty : blank EmptyString.
Proof. exists []. split; [constructor|reflexivity]. Qed.

Lemma contains_suffix (pre s : string) : contains (pre ++ s) s.
Proof.
  exists pre, EmptyString. f_equal.
  induction s as [|c s IH]; [reflexivity|]. cbn. now rewrite <- IH.
Qed.

End JsStringFacts.

(** ** The handlers, path by path *)

Section Paths.

Context {host : Host}.
Variable w : World.
Variable st : Store.

Import JsStringFacts.

Lemma process_no_file :
  uploadedFile st = None ->
  invoke w handleProcessFile st =
  {| trace := [EvAlert alert_no_file]; final := st; uncaught := None |}.
Proof.
  intros H. unfold invoke, run, handleProcessFile. cbn. rewrite H. reflexivity.
Qed.

Lemma process_blank_schema f :
  uploadedFile st = Some f ->
  JsString.blank (schemaJson (view st)) ->
  invoke w handleProcessFile st =
  {| trace := [EvAlert alert_no_schema]; final := st; uncaught := None |}.
Proof.
  intros H Hb. apply not_trim_iff in Hb.
  unfold invoke, run, handleProcessFile. cbn. rewrite H, Hb. reflexivity.
Qed.

Lemma process_success f data :
  uploadedFile st = Some f ->
  ~ JsString.blank (schemaJson (view st)) ->
  net w (process_request (Some f) (schemaJson (view st))) = Resolved data ->
  succeeded data = true ->
  invoke w handleProcessFile st =
  {| trace :=
       [EvSet (SetLoading true);
        EvPost (process_request (Some f) (schemaJson (view st)));
        EvFlush (apply_update (view st) (SetLoading true));
        EvSet (SetMetadata (field data "metadata"));
        EvSet (SetDescription (field data "structured_markdown"));
        EvSet (SetGeneratedJson (field data "generated_json"));
        EvSet (SetSuggestedPrompt
                 (or_else (field data "suggested_prompt") (JStr "")));
        EvSet (SetLoading false);
        EvFlush (processed (view st) data)];
     final := {| view := processed (view st) data;
                 uploadedFile := uploadedFile st |};
     uncaught := None |}.
Proof.
  intros H Hb Hn Hs. apply not_trim_false in Hb.
  unfold invoke, run, handleProcessFile. cbn. rewrite H, Hb. cbn. rewrite H.
  cbn. rewrite Hn. cbn.
  unfold succeeded in Hs.
  destruct data; cbn in Hs; try discriminate.
  unfold prop. cbn. rewrite Hs. cbn. reflexivity.
Qed.

Lemma process_declined f data text :
  uploadedFile st = Some f ->
  ~ JsString.blank (schemaJson (view st)) ->
  net w (process_request (Some f) (schemaJson (view st))) = Resolved data ->
  declined data = true ->
  to_string (field data "message") = inl text ->
  invoke w handleProcessFile st =
  {| trace :=
       [EvSet (SetLoading true);
        EvPost (process_request (Some f) (schemaJson (view st)));
        EvFlush (apply_update (view st) (SetLoading true));
        EvAlert (alert_error text);
        EvSet (SetLoading false);
        EvFlush (apply_update (view st) (SetLoading false))];
     final := {| view := apply_update (view st) (SetLoading false);
                 uploadedFile := uploadedFile st |};
     uncaught := None |}.
Proof.
  intros H Hb Hn Hs Ht. apply not_trim_false in Hb.
  unfold invoke, run, handleProcessFile. cbn. rewrite H, Hb. cbn. rewrite H.
  cbn. rewrite Hn. cbn.
  unfold declined in Hs. unfold prop, field in *.
  destruct (get_prop data "status") as [status|e] eqn:E; [|discriminate].
  apply Bool.negb_true_iff in Hs. cbn. rewrite Hs.
  destruct data; cbn in E; try discriminate; cbn in Ht |- *;
    unfold printed;
    first [ rewrite Ht; reflexivity
          | injection Ht as <-; reflexivity
          | discriminate ].
Qed.

Lemma process_rejected f e :
  uploadedFile st = Some f ->
  ~ JsString.blank (schemaJson (view st)) ->
  net w (process_request (Some f) (schemaJson (view st))) = Rejected e ->
  invoke w handleProcessFile st = process_caught st f e.
Proof.
  intros H Hb Hn. apply not_trim_false in Hb.
  unfold invoke, run, handleProcessFile, process_caught.
  cbn. rewrite H, Hb. cbn. rewrite H.
  cbn. rewrite Hn. cbn. reflexivity.
Qed.

Lemma process_threw f data e :
  uploadedFile st = Some f ->
  ~ JsString.blank (schemaJson (view st)) ->
  net w (process_request (Some f) (schemaJson (view st))) = Resolved data ->
  get_prop data "status" = inr e ->
  invoke w handleProcessFile st = process_caught st f e.
Proof.
  intros H Hb Hn He. apply not_trim_false in Hb.
  unfold invoke, run, handleProcessFile, process_caught.
  cbn. rewrite H, Hb. cbn. rewrite H.
  cbn. rewrite Hn. cbn. unfold prop. rewrite He. cbn. reflexivity.
Qed.

(** The message of the response cannot be turned into text: the
    concatenation throws inside the [try]. *)
Lemma process_unprintable f data e :
  uploadedFile st = Some f ->
  ~ JsString.blank (schemaJson (view st)) ->
  net w (process_request (Some f) (schemaJson (view st))) = Resolved data ->
  declined data = true ->
  to_string (field data "message") = inr e ->
  invoke w handleProcessFile st = process_caught st f e.
Proof.
  intros H Hb Hn Hs Ht. apply not_trim_false in Hb.
  unfold invoke, run, handleProcessFile, process_caught.
  cbn. rewrite H, Hb. cbn. rewrite H.
  cbn. rewrite Hn. cbn.
  unfold declined in Hs. unfold prop, field in *.
  destruct (get_prop data "status") as [status|e'] eqn:E; [|discriminate].
  apply Bool.negb_true_iff in Hs. cbn. rewrite Hs.
  destruct data; cbn in E; try discriminate; cbn in Ht |- *;
    unfold printed;
    first [ rewrite Ht; reflexivity
          | injection Ht as <-; reflexivity
          | discriminate ].
Qed.

Lemma try_blank :
  JsString.blank (userPrompt (view st)) ->
  invoke w handleTryPrompt st =
  {| trace := []; final := st; uncaught := None |}.
Proof.
  intros Hb. apply not_trim_iff in Hb.
  unfold invoke, run, handleTryPrompt. rewrite Hb. reflexivity.
Qed.

Lemma try_resolved data v :
  ~ JsString.blank (userPrompt (view st)) ->
  net w (try_request (view st)) = Resolved data ->
  get_prop data "result" = inl v ->
  invoke w handleTryPrompt st =
  {| trace :=
       [EvPost (try_request (view st));
        EvSet (SetPromptResult v);
        EvFlush (apply_update (view st) (SetPromptResult v))];
     final := {| view := apply_update (view st) (SetPromptResult v);
                 uploadedFile := uploadedFile st |};
     uncaught := None |}.
Proof.
  intros Hb Hn Hv. apply not_trim_false in Hb.
  unfold invoke, run, handleTryPrompt. rewrite Hb. cbn. rewrite Hn. cbn.
  unfold prop. rewrite Hv. cbn. reflexivity.
Qed.

Lemma try_rejected e :
  ~ JsString.blank (userPrompt (view st)) ->
  net w (try_request (view st)) = Rejected e ->
  invoke w handleTryPrompt st = try_caught st e.
Proof.
  intros Hb Hn. apply not_trim_false in Hb.
  unfold invoke, run, handleTryPrompt, try_caught.
  rewrite Hb. cbn. rewrite Hn. cbn. reflexivity.
Qed.

Lemma try_threw data e :
  ~ JsString.blank (userPrompt (view st)) ->
  net w (try_request (view st)) = Resolved data ->
  get_prop data "result" = inr e ->
  invoke w handleTryPrompt st = try_caught st e.
Proof.
  intros Hb Hn He. apply not_trim_false in Hb.
  unfold invoke, run, handleTryPrompt, try_caught.
  rewrite Hb. cbn. rewrite Hn. cbn. unfold prop. rewrite He. cbn. reflexivity.
Qed.

Lemma save_blank :
  JsString.blank (userPrompt (view st)) ->
  invoke w handleSavePrompt st =
  {| trace := [EvAlert alert_missing]; final := st; uncaught := None |}.
Proof.
  intros Hb. apply not_trim_iff in Hb.
  unfold invoke, run, handleSavePrompt. rewrite Hb. reflexivity.
Qed.

Lemma save_no_layout l :
  ~ JsString.blank (userPrompt (view st)) ->
  get_prop (metadata (view st)) "layout" = inl l ->
  truthy l = false ->
  invoke w handleSavePrompt st =
  {| trace := [EvAlert alert_missing]; final := st; uncaught := None |}.
Proof.
  intros Hb Hl Ht. apply not_trim_false in Hb.
  unfold invoke, run, handleSavePrompt. rewrite Hb. unfold prop. rewrite Hl.
  cbn. rewrite Ht. reflexivity.
Qed.

Lemma save_threw e :
  ~ JsString.blank (userPrompt (view st)) ->
  get_prop (metadata (view st)) "layout" = inr e ->
  invoke w handleSavePrompt st =
  {| trace := []; final := st; uncaught := Some e |}.
Proof.
  intros Hb Hl. apply not_trim_false in Hb.
  unfold invoke, run, handleSavePrompt. rewrite Hb. unfold prop. rewrite Hl.
  reflexivity.
Qed.

Lemma save_resolved l data :
  ~ JsString.blank (userPrompt (view st)) ->
  get_prop (metadata (view st)) "layout" = inl l ->
  truthy l = true ->
  net w (save_request l (view st)) = Resolved data ->
  invoke w handleSavePrompt st =
  {| trace := [EvPost (save_request l (view st)); EvAlert alert_saved];
     final := st; uncaught := None |}.
Proof.
  intros Hb Hl Ht Hn. apply not_trim_false in Hb.
  unfold invoke, run, handleSavePrompt. rewrite Hb. unfold prop. rewrite Hl.
  cbn. rewrite Ht. cbn. rewrite Hn. reflexivity.
Qed.

Lemma save_rejected l e :
  ~ JsString.blank (userPrompt (view st)) ->
  get_prop (metadata (view st)) "layout" = inl l ->
  truthy l = true ->
  net w (save_request l (view st)) = Rejected e ->
  invoke w handleSavePrompt st =
  {| trace := [EvPost (save_request l (view st)); EvConsoleError e;
               EvAlert alert_save_failed];
     final := st; uncaught := None |}.
Proof.
  intros Hb Hl Ht Hn. apply not_trim_false in Hb.
  unfold invoke, run, handleSavePrompt. rewrite Hb. unfold prop. rewrite Hl.
  cbn. rewrite Ht. cbn. rewrite Hn. reflexivity.
Qed.

End Paths.

(** ** Sessions: what changes [metadata] *)

Section Sessions.

Context {host : Host}.

Import JsStringFacts.

Lemma blank_dec (s : string) : {JsString.blank s} + {~ JsString.blank s}.
Proof.
  destruct (JsString.is_empty (JsString.trim s)) eqn:E.
  - left. now apply not_trim_iff.
  - right. now apply not_trim_false.
Qed.

(** The run of the process handler keeps [metadata] unless the backend
    answered with success. *)
Lemma process_metadata (w : World) (st : Store) :
  successful_process st (w, ClickProcess) = false ->
  metadata (view (final (invoke w handleProcessFile st))) = metadata (view st).
Proof.
  unfold successful_process. cbn [fst snd]. intros H.
  destruct (uploadedFile st) as [f|] eqn:Hf.
  2:{ now rewrite (process_no_file w st Hf). }
  destruct (blank_dec (schemaJson (view st))) as [Hb|Hb].
  { now rewrite (process_blank_schema w st f Hf Hb). }
  pose proof Hb as Hb'. apply not_trim_false in Hb'. rewrite Hb' in H.
  cbn [negb andb] in H.
  destruct (net w (process_request (Some f) (schemaJson (view st))))
    as [data|e] eqn:Hn.
  - destruct (get_prop data "status") as [status|e] eqn:Hp.
    + assert (Hno : declined data = true).
      { unfold succeeded in H. unfold declined. rewrite Hp in *. now rewrite H. }
      destruct (to_string (field data "message")) as [text|e] eqn:Ht.
      * now rewrite (process_declined w st f data text Hf Hb Hn Hno Ht).
      * now rewrite (process_unprintable w st f data e Hf Hb Hn Hno Ht).
    + now rewrite (process_threw w st f data e Hf Hb Hn Hp).
  - now rewrite (process_rejected w st f e Hf Hb Hn).
Qed.

Lemma try_metadata (w : World) (st : Store) :
  metadata (view (final (invoke w handleTryPrompt st))) = metadata (view st).
Proof.
  destruct (blank_dec (userPrompt (view st))) as [Hb|Hb].
  { now rewrite (try_blank w st Hb). }
  destruct (net w (try_request (view st))) as [data|e] eqn:Hn.
  - destruct (get_prop data "result") as [v|e] eqn:Hp.
    + now rewrite (try_resolved w st data v Hb Hn Hp).
    + now rewrite (try_threw w st data e Hb Hn Hp).
  - now rewrite (try_rejected w st e Hb Hn).
Qed.

(** The save handler never touches the store. *)
Lemma save_final (w : World) (st : Store) :
  final (invoke w handleSavePrompt st) = st.
Proof.
  destruct (blank_dec (userPrompt (view st))) as [Hb|Hb].
  { now rewrite (save_blank w st Hb). }
  destruct (get_prop (metadata (view st)) "layout") as [l|e] eqn:Hl.
  2:{ now rewrite (save_threw w st e Hb Hl). }
  destruct (truthy l) eqn:Ht.
  2:{ now rewrite (save_no_layout w st l Hb Hl Ht). }
  destruct (net w (save_request l (view st))) as [data|e] eqn:Hn.
  - now rewrite (save_resolved w st l data Hb Hl Ht Hn).
  - now rewrite (save_rejected w st l e Hb Hl Ht Hn).
Qed.

Lemma upload_metadata (w : World) (st : Store) (files : list File) :
  metadata (view (final (run w (handleFileUpload files) st)))
  = metadata (view st).
Proof.
  destruct files as [|file rest]; [reflexivity|].
  unfold run, handleFileUpload. cbn.
  destruct (String.eqb _ "pdf"); reflexivity.
Qed.

Lemma interact_metadata (st : Store) (wa : World * Action) :
  successful_process st wa = false ->
  metadata (view (interact st wa)) = metadata (view st).
Proof.
  destruct wa as [w a]. unfold interact. cbn [fst snd].
  destruct a; intros H; cbn [handler].
  - reflexivity.
  - reflexivity.
  - apply upload_metadata.
  - now apply process_metadata.
  - apply try_metadata.
  - change (invoke w (fun s => handleSavePrompt s) st)
      with (invoke w handleSavePrompt st).
    now rewrite save_final.
Qed.

(** Until a process call succeeds, [metadata] is what it was. *)
Lemma session_metadata (l : list (World * Action)) : forall st,
  no_success st l = true ->
  metadata (view (session st l)) = metadata (view st).
Proof.
  induction l as [|wa l IH]; intros st H; [reflexivity|].
  cbn [no_success] in H. apply Bool.andb_true_iff in H. destruct H as [H1 H2].
  apply Bool.negb_true_iff in H1.
  cbn [session]. rewrite (IH _ H2). now apply interact_metadata.
Qed.

Lemma no_layout_initially (l : list (World * Action)) :
  no_success initial_store l = true ->
  has_layout (view (session initial_store l)) = false.
Proof.
  intros H. unfold has_layout. now rewrite (session_metadata l _ H).
Qed.

(** [loading] is written by the process handler only: whatever else runs,
    every batch it flushes has the flag as it found it. *)
Lemma others_keep_loading (w : World) (st : Store) (a : Action) :
  a <> ClickProcess ->
  Forall (fun s => loading s = loading (view st))
         (flushes (trace (invoke w (handler a) st))).
Proof.
  intros Ha. destruct a; [| | | congruence | |]; unfold invoke; cbn [handler].
  - repeat constructor.
  - repeat constructor.
  - destruct files as [|file rest]; [constructor|].
    unfold run, handleFileUpload. cbn.
    destruct (String.eqb _ "pdf"); cbn; repeat constructor.
  - fold (invoke w handleTryPrompt st).
    destruct (blank_dec (userPrompt (view st))) as [Hb|Hb].
    { rewrite (try_blank w st Hb). constructor. }
    destruct (net w (try_request (view st))) as [data|e] eqn:Hn.
    + destruct (get_prop data "result") as [v|e] eqn:Hp.
      * rewrite (try_resolved w st data v Hb Hn Hp). repeat constructor.
      * rewrite (try_threw w st data e Hb Hn Hp). repeat constructor.
    + rewrite (try_rejected w st e Hb Hn). repeat constructor.
  - fold (invoke w handleSavePrompt st).
    destruct (blank_dec (userPrompt (view st))) as [Hb|Hb].
    { rewrite (save_blank w st Hb). constructor. }
    destruct (get_prop (metadata (view st)) "layout") as [l|e] eqn:Hl.
    2:{ rewrite (save_threw w st e Hb Hl). constructor. }
    destruct (truthy l) eqn:Ht.
    2:{ rewrite (save_no_layout w st l Hb Hl Ht). constructor. }
    destruct (net w (save_request l (view st))) as [data|e] eqn:Hn.
    + rewrite (save_resolved w st l data Hb Hl Ht Hn). constructor.
    + rewrite (save_rejected w st l e Hb Hl Ht Hn). constructor.
Qed.

End Sessions.

(** ** The process-file interaction *)

Section ProcessFile.

Context {host : Host}.
Variable w : World.
Variable st : Store.

Import JsStringFacts.

Lemma or_else_defined (v : JsVal) :
  or_else v (JStr "") <> JUndefined /\ or_else v (JStr "") <> JNull.
Proof.
  unfold or_else. destruct v; cbn; try (split; discriminate).
  destruct b; split; discriminate.
  destruct (num_falsy n); split; discriminate.
  destruct s; split; discriminate.
Qed.

(** C1. A process call answered with [status] equal to ["success"]
    replaces the four result fields together. The four setter calls follow
    one another, each with what the response has under [metadata],
    [structured_markdown], [generated_json] and [suggested_prompt] (for
    the last, the empty string when the response has none or a falsy one,
    and the value itself otherwise). React takes them up in one batch,
    whose state has all four new values; every batch flushed before has
    the four old ones. *)
Theorem process_success_atomic (f : File) (data : JsVal) :
  uploadedFile st = Some f ->
  ~ JsString.blank (schemaJson (view st)) ->
  net w (process_request (Some f) (schemaJson (view st))) = Resolved data ->
  succeeded data = true ->
  let r := invoke w handleProcessFile st in
  let p := field data "suggested_prompt" in
  let p' := if truthy p then p else JStr "" in
  let new := (field data "metadata", field data "structured_markdown",
              field data "generated_json", p') in
  (exists pre s',
     trace r =
       (pre ++ [EvSet (SetMetadata (field data "metadata"));
                EvSet (SetDescription (field data "structured_markdown"));
                EvSet (SetGeneratedJson (field data "generated_json"));
                EvSet (SetSuggestedPrompt p');
                EvSet (SetLoading false);
                EvFlush s'])%list
     /\ Forall (fun s => results s = results (view st)) (flushes pre)
     /\ results s' = new
     /\ view (final r) = s')
  /\ Forall (fun s => results s = results (view st) \/ results s = new)
            (flushes (trace r))
  /\ results (view (final r)) = new
  /\ (truthy p = true -> suggestedPrompt (view (final r)) = p)
  /\ (exists props,
        data = JObj props
        /\ field data "metadata" = lookup "metadata" props
        /\ field data "structured_markdown" = lookup "structured_markdown" props
        /\ field data "generated_json" = lookup "generated_json" props
        /\ p = lookup "suggested_prompt" props).
Proof.
  intros Hf Hb Hn Hs r p p' new. subst r p p' new.
  rewrite (process_success w st f data Hf Hb Hn Hs). cbn [trace final view].
  split; [|split; [|split; [|split]]].
  - exists [EvSet (SetLoading true);
            EvPost (process_request (Some f) (schemaJson (view st)));
            EvFlush (apply_update (view st) (SetLoading true))].
    exists (processed (view st) data).
    repeat split. cbn. constructor; [reflexivity|constructor].
  - cbn. constructor; [left; reflexivity|].
    constructor; [right; reflexivity|constructor].
  - reflexivity.
  - intros Ht. unfold processed, or_else. cbn [suggestedPrompt].
    now rewrite Ht.
  - unfold succeeded in Hs.
    destruct data; cbn in Hs; try discriminate.
    exists props. repeat split.
Qed.

(** C2. A process call answered with another status raises exactly one
    alert and leaves the four result fields as they were, in every batch
    and at the end. When the message of the response is a text, the alert
    is ["❌ Error: "] followed by that text. For the other values a
    response can carry the alert is fixed as well: [undefined] for no
    message, [null], [true], [false], the number as it prints,
    [[object Object]] for an object, the items joined by commas for an
    array, and for an object with a property [toString] of its own the
    concatenation throws and the alert is the one of the [catch], with
    the engine's text for that [TypeError]. A call whose request fails, or whose response
    cannot be read, raises the alert of the [catch] and leaves the four
    fields as well. *)
Theorem process_failure_keeps_results (f : File) :
  uploadedFile st = Some f ->
  ~ JsString.blank (schemaJson (view st)) ->
  let r := invoke w handleProcessFile st in
  let req := process_request (Some f) (schemaJson (view st)) in
  (forall data,
     net w req = Resolved data -> declined data = true ->
     (exists text, alerts (trace r) = [text])
     /\ (forall m, field data "message" = JStr m ->
                   alerts (trace r) = ["❌ Error: " ++ m]
                   /\ JsString.contains ("❌ Error: " ++ m) m)
     /\ (field data "message" = JUndefined ->
         alerts (trace r) = ["❌ Error: undefined"])
     /\ (field data "message" = JNull ->
         alerts (trace r) = ["❌ Error: null"])
     /\ (forall b, field data "message" = JBool b ->
                   alerts (trace r)
                   = [if b then "❌ Error: true" else "❌ Error: false"])
     /\ (forall n, field data "message" = JNum n ->
                   alerts (trace r) = ["❌ Error: " ++ num_to_string n])
     /\ (forall props, field data "message" = JObj props ->
                       alerts (trace r)
                       = [if has_own "toString" props
                          then "❌ API call failed: " ++ message cannot_convert
                          else "❌ Error: [object Object]"])
     /\ (forall a b, field data "message" = JArr [JStr a; JNull; JStr b] ->
                     alerts (trace r) = ["❌ Error: " ++ a ++ ",," ++ b])
     /\ (forall text, to_string (field data "message") = inl text ->
                      alerts (trace r) = ["❌ Error: " ++ text]
                      /\ JsString.contains ("❌ Error: " ++ text) text)
     /\ (forall e, to_string (field data "message") = inr e ->
                   alerts (trace r) = ["❌ API call failed: " ++ message e])
     /\ results (view (final r)) = results (view st)
     /\ Forall (fun s => results s = results (view st)) (flushes (trace r)))
  /\ (forall e,
        net w req = Rejected e \/
        (exists data, net w req = Resolved data
                      /\ get_prop data "status" = inr e) ->
        alerts (trace r) = ["❌ API call failed: " ++ message e]
        /\ results (view (final r)) = results (view st)
        /\ Forall (fun s => results s = results (view st))
                  (flushes (trace r))).
Proof.
  intros Hf Hb r req. subst r req. split.
  - intros data Hn Hd.
    assert (Hin : forall text,
              to_string (field data "message") = inl text ->
              invoke w handleProcessFile st = process_refused st f text).
    { intros text Ht. now apply (process_declined w st f data). }
    assert (Hout : forall e,
              to_string (field data "message") = inr e ->
              invoke w handleProcessFile st = process_caught st f e).
    { intros e Ht. now apply (process_unprintable w st f data). }
    split; [|split; [|split; [|split; [|split; [|split; [|split;
      [|split; [|split; [|split; [|split]]]]]]]]]].
    + destruct (to_string (field data "message")) as [text|e] eqn:Ht.
      * rewrite (Hin text eq_refl). eexists. reflexivity.
      * rewrite (Hout e eq_refl). eexists. reflexivity.
    + intros m Hm. rewrite (Hin m); [|now rewrite Hm].
      split; [reflexivity|apply contains_suffix].
    + intros Hm. rewrite (Hin "undefined"); [reflexivity|now rewrite Hm].
    + intros Hm. rewrite (Hin "null"); [reflexivity|now rewrite Hm].
    + intros b Hm. destruct b.
      * rewrite (Hin "true"); [reflexivity|now rewrite Hm].
      * rewrite (Hin "false"); [reflexivity|now rewrite Hm].
    + intros n Hm. rewrite (Hin (num_to_string n)); [reflexivity|now rewrite Hm].
    + intros props Hm. destruct (has_own "toString" props) eqn:Hown.
      * rewrite (Hout cannot_convert); [reflexivity|].
        rewrite Hm. cbn. now rewrite Hown.
      * rewrite (Hin "[object Object]"); [reflexivity|].
        rewrite Hm. cbn. now rewrite Hown.
    + intros a b Hm. rewrite (Hin (a ++ ",," ++ b)); [reflexivity|].
      rewrite Hm. reflexivity.
    + intros text Ht. rewrite (Hin text Ht).
      split; [reflexivity|apply contains_suffix].
    + intros e Ht. rewrite (Hout e Ht). reflexivity.
    + destruct (to_string (field data "message")) as [text|e] eqn:Ht.
      * rewrite (Hin text eq_refl). reflexivity.
      * rewrite (Hout e eq_refl). reflexivity.
    + destruct (to_string (field data "message")) as [text|e] eqn:Ht.
      * rewrite (Hin text eq_refl). cbn. repeat constructor.
      * rewrite (Hout e eq_refl). cbn. repeat constructor.
  - intros e He.
    assert (Hr : invoke w handleProcessFile st = process_caught st f e).
    { destruct He as [Hn|(data & Hn & Hp)].
      - now apply process_rejected.
      - now apply (process_threw w st f data). }
    rewrite Hr. unfold process_caught. cbn [trace final view].
    repeat split. cbn. repeat constructor.
Qed.

(** C3. With no file selected the process handler raises the missing-file
    alert, whatever the schema text is; with a file and a blank schema
    text it raises the missing-schema alert; in both cases it does
    nothing else: no request, no change of state. *)
Theorem process_preconditions :
  let r := invoke w handleProcessFile st in
  (uploadedFile st = None ->
     trace r = [EvAlert alert_no_file]
     /\ requests (trace r) = [] /\ final r = st)
  /\ (uploadedFile st <> None ->
      JsString.blank (schemaJson (view st)) ->
      trace r = [EvAlert alert_no_schema]
      /\ requests (trace r) = [] /\ final r = st).
Proof.
  intros r. subst r. split.
  - intros Hf. rewrite (process_no_file w st Hf). repeat split.
  - intros Hf Hb. destruct (uploadedFile st) as [f|] eqn:E; [|congruence].
    rewrite (process_blank_schema w st f E Hb). repeat split.
Qed.

(** The loading flag through a process call that passes its
    preconditions: [setLoading(true)] is called before the request is
    issued, the batch flushed while the request is pending has the flag
    up, the handler flushes nothing else until the call has completed, and
    on every path the last thing it does is [setLoading(false)], flushed
    in the last batch. No other interaction touches the flag. *)
Lemma process_loading_cells (f : File) :
  uploadedFile st = Some f ->
  ~ JsString.blank (schemaJson (view st)) ->
  let r := invoke w handleProcessFile st in
  (exists (pending : State) (mid : list Event) (last : State),
     trace r =
       ([EvSet (SetLoading true);
         EvPost (process_request (Some f) (schemaJson (view st)));
         EvFlush pending]
        ++ mid ++ [EvSet (SetLoading false); EvFlush last])%list
     /\ loading pending = true
     /\ flushes mid = [] /\ requests mid = []
     /\ view (final r) = last
     /\ loading last = false
     /\ uncaught r = None)
  /\ (forall (w' : World) (st' : Store) (a : Action),
        a <> ClickProcess ->
        Forall (fun s => loading s = loading (view st'))
               (flushes (trace (invoke w' (handler a) st')))).
Proof.
  intros Hf Hb r. subst r. split.
  2:{ intros w' st' a Ha. now apply others_keep_loading. }
  exists (apply_update (view st) (SetLoading true)).
  destruct (net w (process_request (Some f) (schemaJson (view st))))
    as [data|e] eqn:Hn.
  - destruct (get_prop data "status") as [status|e] eqn:Hp.
    + destruct (strict_eq_str status "success") eqn:Hs.
      * assert (Hok : succeeded data = true)
          by (unfold succeeded; now rewrite Hp).
        rewrite (process_success w st f data Hf Hb Hn Hok).
        exists [EvSet (SetMetadata (field data "metadata"));
                EvSet (SetDescription (field data "structured_markdown"));
                EvSet (SetGeneratedJson (field data "generated_json"));
                EvSet (SetSuggestedPrompt
                         (or_else (field data "suggested_prompt") (JStr "")))].
        exists (processed (view st) data). repeat split.
      * assert (Hno : declined data = true)
          by (unfold declined; now rewrite Hp, Hs).
        destruct (to_string (field data "message")) as [text|e] eqn:Ht.
        -- rewrite (process_declined w st f data text Hf Hb Hn Hno Ht).
           exists [EvAlert (alert_error text)].
           exists (apply_update (view st) (SetLoading false)). repeat split.
        -- rewrite (process_unprintable w st f data e Hf Hb Hn Hno Ht).
           exists [EvConsoleError e; EvAlert (alert_failed e)].
           exists (apply_update (view st) (SetLoading false)). repeat split.
    + rewrite (process_threw w st f data e Hf Hb Hn Hp).
      exists [EvConsoleError e; EvAlert (alert_failed e)].
      exists (apply_update (view st) (SetLoading false)). repeat split.
  - rewrite (process_rejected w st f e Hf Hb Hn).
    exists [EvConsoleError e; EvAlert (alert_failed e)].
    exists (apply_update (view st) (SetLoading false)). repeat split.
Qed.

(** C8, where the code departs from it. A process call that passes its
    preconditions calls [setLoading(true)] before the request and
    [setLoading(false)] last; but when the response has [status] equal to
    ["success"] and no [generated_json], or [null] there, the batch that
    carries the lowered flag yields a state at which the component
    function throws, on [Object.keys(generatedJson)]: the submit button is
    not rendered again, enabled or otherwise. *)
Theorem process_flag_down_render_broken (f : File) (data : JsVal) :
  uploadedFile st = Some f ->
  ~ JsString.blank (schemaJson (view st)) ->
  net w (process_request (Some f) (schemaJson (view st))) = Resolved data ->
  succeeded data = true ->
  field data "generated_json" = JUndefined
  \/ field data "generated_json" = JNull ->
  let r := invoke w handleProcessFile st in
  exists (mid : list Event) (last : State),
    trace r =
      ([EvSet (SetLoading true);
        EvPost (process_request (Some f) (schemaJson (view st)));
        EvFlush (apply_update (view st) (SetLoading true))]
       ++ mid ++ [EvSet (SetLoading false); EvFlush last])%list
    /\ flushes mid = []
    /\ view (final r) = last
    /\ loading last = false
    /\ (exists e, render_error last = Some e /\ err_name e = "TypeError").
Proof.
  intros Hf Hb Hn Hs Hg r. subst r.
  rewrite (process_success w st f data Hf Hb Hn Hs).
  exists [EvSet (SetMetadata (field data "metadata"));
          EvSet (SetDescription (field data "structured_markdown"));
          EvSet (SetGeneratedJson (field data "generated_json"));
          EvSet (SetSuggestedPrompt
                   (or_else (field data "suggested_prompt") (JStr "")))].
  exists (processed (view st) data).
  repeat split.
  unfold render_error, extracted_panel, processed. cbn [generatedJson].
  destruct Hg as [Hg|Hg]; rewrite Hg; eexists; split; reflexivity.
Qed.

(** C10. After a process call answered with [status] equal to
    ["success"], [metadata], [description] and [generatedJson] hold what
    the response had under [metadata], [structured_markdown] and
    [generated_json], [undefined] where it had nothing; [suggestedPrompt]
    holds the empty string when [suggested_prompt] is absent, [null] or
    otherwise falsy, the value itself when it is truthy, and so never
    [undefined] or [null]. *)
Theorem process_success_suggested_prompt (f : File) (data : JsVal) :
  uploadedFile st = Some f ->
  ~ JsString.blank (schemaJson (view st)) ->
  net w (process_request (Some f) (schemaJson (view st))) = Resolved data ->
  succeeded data = true ->
  let s' := view (final (invoke w handleProcessFile st)) in
  (truthy (field data "suggested_prompt") = false ->
     suggestedPrompt s' = JStr "")
  /\ (truthy (field data "suggested_prompt") = true ->
      suggestedPrompt s' = field data "suggested_prompt")
  /\ suggestedPrompt s' <> JUndefined
  /\ suggestedPrompt s' <> JNull
  /\ metadata s' = field data "metadata"
  /\ description s' = field data "structured_markdown"
  /\ generatedJson s' = field data "generated_json".
Proof.
  intros Hf Hb Hn Hs s'. subst s'.
  rewrite (process_success w st f data Hf Hb Hn Hs). cbn [final view].
  unfold processed. cbn [suggestedPrompt metadata description generatedJson].
  pose proof (or_else_defined (field data "suggested_prompt")) as [H1 H2].
  repeat split; auto.
  - intros Ht. unfold or_else. now rewrite Ht.
  - intros Ht. unfold or_else. now rewrite Ht.
Qed.

End ProcessFile.

(** ** The prompt interactions and the file picker *)

Section Prompts.

Context {host : Host}.
Variable w : World.
Variable st : Store.

Import JsStringFacts.

Lemma has_layout_false_cases :
  has_layout (view st) = false ->
  (exists e, get_prop (metadata (view st)) "layout" = inr e)
  \/ (exists l, get_prop (metadata (view st)) "layout" = inl l
                /\ truthy l = false).
Proof.
  unfold has_layout.
  destruct (get_prop (metadata (view st)) "layout") as [l|e];
    intros H; [right; now exists l|left; now exists e].
Qed.

Lemma save_requests_none :
  JsString.blank (userPrompt (view st)) \/ has_layout (view st) = false ->
  requests (trace (invoke w handleSavePrompt st)) = [].
Proof.
  intros H.
  destruct (blank_dec (userPrompt (view st))) as [Hb|Hb].
  { now rewrite (save_blank w st Hb). }
  destruct H as [H|H]; [contradiction|].
  destruct (has_layout_false_cases H) as [(e & He)|(l & Hl & Ht)].
  - now rewrite (save_threw w st e Hb He).
  - now rewrite (save_no_layout w st l Hb Hl Ht).
Qed.

Lemma save_requests_one :
  ~ JsString.blank (userPrompt (view st)) ->
  has_layout (view st) = true ->
  requests (trace (invoke w handleSavePrompt st))
  = [save_request (field (metadata (view st)) "layout") (view st)].
Proof.
  intros Hb H. unfold has_layout, field in *.
  destruct (get_prop (metadata (view st)) "layout") as [l|e] eqn:Hl;
    [|discriminate].
  destruct (net w (save_request l (view st))) as [data|e] eqn:Hn.
  - now rewrite (save_resolved w st l data Hb Hl H Hn).
  - now rewrite (save_rejected w st l e Hb Hl H Hn).
Qed.

(** C5. The save handler issues no request when the prompt is blank or
    [metadata] has no truthy [layout], which is the case in every session
    in which no process call has succeeded yet; with a prompt that is not
    blank and a layout it issues one request, to the save endpoint, and
    whatever it sends has the body [{layout, prompt}] made of
    [metadata.layout] and the prompt. *)
Theorem save_prompt_requests :
  let r := invoke w handleSavePrompt st in
  (JsString.blank (userPrompt (view st)) -> requests (trace r) = [])
  /\ (has_layout (view st) = false -> requests (trace r) = [])
  /\ (forall props, metadata (view st) = JObj props ->
                    lookup "layout" props = JUndefined ->
                    requests (trace r) = [])
  /\ (forall history, no_success initial_store history = true ->
                      st = session initial_store history ->
                      requests (trace r) = [])
  /\ (~ JsString.blank (userPrompt (view st)) ->
      has_layout (view st) = true ->
      exists q, requests (trace r) = [q]
                /\ url q = save_url /\ body q = save_body (view st))
  /\ Forall (fun q => url q = save_url /\ body q = save_body (view st))
            (requests (trace r)).
Proof.
  intros r. subst r.
  split; [|split; [|split; [|split; [|split]]]].
  - intros Hb. apply save_requests_none. now left.
  - intros Hl. apply save_requests_none. now right.
  - intros props Hm Hl. apply save_requests_none. right.
    unfold has_layout. rewrite Hm. cbn. now rewrite Hl.
  - intros history Hh Hst. apply save_requests_none. right.
    rewrite Hst. now apply no_layout_initially.
  - intros Hb Hl. rewrite (save_requests_one Hb Hl).
    eexists. repeat split.
  - destruct (blank_dec (userPrompt (view st))) as [Hb|Hb].
    { rewrite save_requests_none; [constructor|now left]. }
    destruct (has_layout (view st)) eqn:Hl.
    + rewrite (save_requests_one Hb Hl). repeat constructor.
    + rewrite save_requests_none; [constructor|now right].
Qed.

(** C6. A try-prompt call whose request fails, or whose response cannot
    be read, stores the object [{error: "Failed to try prompt"}] as the
    prompt result, which the view shows in the result panel; it raises no
    alert and changes nothing else: one setter call, every other cell and
    the ref as before. *)
Theorem try_failure_is_inline (e : JsError) :
  ~ JsString.blank (userPrompt (view st)) ->
  net w (try_request (view st)) = Rejected e
  \/ (exists data, net w (try_request (view st)) = Resolved data
                   /\ get_prop data "result" = inr e) ->
  let r := invoke w handleTryPrompt st in
  promptResult (view (final r)) = try_failed
  /\ result_panel_shown (view (final r)) = true
  /\ alerts (trace r) = []
  /\ updates (trace r) = [SetPromptResult try_failed]
  /\ all_but_promptResult (view (final r)) = all_but_promptResult (view st)
  /\ uploadedFile (final r) = uploadedFile st
  /\ uncaught r = None.
Proof.
  intros Hb He r. subst r.
  assert (Hr : invoke w handleTryPrompt st = try_caught st e).
  { destruct He as [Hn|(data & Hn & Hp)].
    - now apply try_rejected.
    - now apply (try_threw w st data). }
  rewrite Hr. repeat split.
Qed.

(** C7. Whatever the try handler sends, for any prompt and so for every
    prompt that is not empty, goes to the try endpoint with the body
    [{prompt, structured_markdown}] made of the prompt and the description
    of the render it was called in; with a prompt that is not blank it
    sends exactly one such request; and when a request was sent and
    answered, the [result] of the response is the prompt result afterwards,
    as it came. *)
Theorem try_prompt_request_and_result :
  let r := invoke w handleTryPrompt st in
  Forall (fun q => url q = try_url /\ body q = try_body (view st))
         (requests (trace r))
  /\ (~ JsString.blank (userPrompt (view st)) ->
      exists q, requests (trace r) = [q]
                /\ url q = try_url /\ body q = try_body (view st))
  /\ (forall data v,
        requests (trace r) <> [] ->
        net w (try_request (view st)) = Resolved data ->
        get_prop data "result" = inl v ->
        promptResult (view (final r)) = v
        /\ updates (trace r) = [SetPromptResult v]).
Proof.
  intros r. subst r.
  destruct (blank_dec (userPrompt (view st))) as [Hb|Hb].
  { rewrite (try_blank w st Hb). cbn [trace requests flat_map].
    split; [constructor|]. split; [contradiction|].
    intros data v Hq. now contradiction Hq. }
  destruct (net w (try_request (view st))) as [data|e] eqn:Hn.
  - destruct (get_prop data "result") as [v|e] eqn:Hp.
    + rewrite (try_resolved w st data v Hb Hn Hp).
      split; [repeat constructor|]. split.
      * intros _. eexists. repeat split.
      * intros data' v' _ [= <-] Hv. rewrite Hp in Hv.
        injection Hv as <-. repeat split.
    + rewrite (try_threw w st data e Hb Hn Hp).
      split; [repeat constructor|]. split.
      * intros _. eexists. repeat split.
      * intros data' v' _ [= <-] Hv. rewrite Hp in Hv. discriminate.
  - rewrite (try_rejected w st e Hb Hn).
    split; [repeat constructor|]. split.
    + intros _. eexists. repeat split.
    + intros data' v' _ Hd. discriminate.
Qed.

(** C9. A change event of the file input that carries no file does
    nothing: no effect is performed, and the store (state cells and the
    ref cell with the file) is the one before. *)
Theorem upload_without_file :
  let r := invoke w (handler (SelectFile [])) st in
  trace r = [] /\ final r = st /\ uncaught r = None
  /\ uploadedFile (final r) = uploadedFile st
  /\ fileType (view (final r)) = fileType (view st)
  /\ pdfUrl (view (final r)) = pdfUrl (view st).
Proof. repeat split. Qed.

(** C4 (amended). A precondition that fails is reported by an alert, and
    by nothing else, in the process handler (no file; a file and a blank
    schema) and in the save handler (a blank prompt; a prompt and a
    [metadata] whose [layout] reads as falsy). In the try handler a blank
    prompt ends the call with no effect at all. None of these calls
    issues a request. *)
Theorem precondition_failures :
  (uploadedFile st = None ->
     trace (invoke w handleProcessFile st) = [EvAlert alert_no_file])
  /\ (uploadedFile st <> None ->
      JsString.blank (schemaJson (view st)) ->
      trace (invoke w handleProcessFile st) = [EvAlert alert_no_schema])
  /\ (JsString.blank (userPrompt (view st)) ->
      trace (invoke w handleTryPrompt st) = [])
  /\ (JsString.blank (userPrompt (view st)) ->
      trace (invoke w handleSavePrompt st) = [EvAlert alert_missing])
  /\ (forall l, ~ JsString.blank (userPrompt (view st)) ->
                get_prop (metadata (view st)) "layout" = inl l ->
                truthy l = false ->
                trace (invoke w handleSavePrompt st) = [EvAlert alert_missing]).
Proof.
  split; [|split; [|split; [|split]]].
  - intros Hf. now rewrite (process_no_file w st Hf).
  - intros Hf Hb. destruct (uploadedFile st) as [f|] eqn:E; [|congruence].
    now rewrite (process_blank_schema w st f E Hb).
  - intros Hb. now rewrite (try_blank w st Hb).
  - intros Hb. now rewrite (save_blank w st Hb).
  - intros l Hb Hl Ht. now rewrite (save_no_layout w st l Hb Hl Ht).
Qed.

End Prompts.

(** ** Every run of every handler *)

Section Cases.

Context {host : Host}.
Variable w : World.
Variable st : Store.

Import JsStringFacts.

(** The five ways a process call can go. *)
Lemma process_cases :
  (uploadedFile st = None
   /\ invoke w handleProcessFile st = alert_only st alert_no_file)
  \/ (exists f, uploadedFile st = Some f
                /\ JsString.blank (schemaJson (view st))
                /\ invoke w handleProcessFile st = alert_only st alert_no_schema)
  \/ (exists f data,
        uploadedFile st = Some f
        /\ ~ JsString.blank (schemaJson (view st))
        /\ net w (process_request (Some f) (schemaJson (view st)))
           = Resolved data
        /\ succeeded data = true
        /\ invoke w handleProcessFile st = process_stored st f data)
  \/ (exists f data text,
        uploadedFile st = Some f
        /\ ~ JsString.blank (schemaJson (view st))
        /\ net w (process_request (Some f) (schemaJson (view st)))
           = Resolved data
        /\ declined data = true
        /\ to_string (field data "message") = inl text
        /\ invoke w handleProcessFile st = process_refused st f text)
  \/ (exists f e,
        uploadedFile st = Some f
        /\ ~ JsString.blank (schemaJson (view st))
        /\ invoke w handleProcessFile st = process_caught st f e).
Proof.
  destruct (uploadedFile st) as [f|] eqn:Hf.
  2:{ left. split; [reflexivity|]. now apply process_no_file. }
  right.
  destruct (blank_dec (schemaJson (view st))) as [Hb|Hb].
  { left. exists f. repeat split; auto. now apply (process_blank_schema w st f). }
  right.
  destruct (net w (process_request (Some f) (schemaJson (view st))))
    as [data|e] eqn:Hn.
  - destruct (get_prop data "status") as [status|e] eqn:Hp.
    + destruct (strict_eq_str status "success") eqn:Hs.
      * left. exists f, data.
        assert (Hok : succeeded data = true)
          by (unfold succeeded; now rewrite Hp).
        repeat split; auto. now apply process_success.
      * right.
        assert (Hno : declined data = true)
          by (unfold declined; now rewrite Hp, Hs).
        destruct (to_string (field data "message")) as [text|e] eqn:Ht.
        -- left. exists f, data, text.
           repeat split; auto. now apply (process_declined w st f data).
        -- right. exists f, e. repeat split; auto.
           now apply (process_unprintable w st f data).
    + right. right. exists f, e. repeat split; auto.
      now apply (process_threw w st f data).
  - right. right. exists f, e. repeat split; auto.
    now apply process_rejected.
Qed.

(** The three ways a try call can go. *)
Lemma try_cases :
  (JsString.blank (userPrompt (view st))
   /\ invoke w handleTryPrompt st = nothing_done st)
  \/ (exists data v,
        ~ JsString.blank (userPrompt (view st))
        /\ net w (try_request (view st)) = Resolved data
        /\ get_prop data "result" = inl v
        /\ invoke w handleTryPrompt st = try_stored st v)
  \/ (exists e,
        ~ JsString.blank (userPrompt (view st))
        /\ invoke w handleTryPrompt st = try_caught st e).
Proof.
  destruct (blank_dec (userPrompt (view st))) as [Hb|Hb].
  { left. split; [exact Hb|]. now apply try_blank. }
  right.
  destruct (net w (try_request (view st))) as [data|e] eqn:Hn.
  - destruct (get_prop data "result") as [v|e] eqn:Hp.
    + left. exists data, v. repeat split; auto. now apply (try_resolved w st data).
    + right. exists e. split; [exact Hb|]. now apply (try_threw w st data).
  - right. exists e. split; [exact Hb|]. now apply try_rejected.
Qed.

(** The four ways a save call can go. *)
Lemma save_cases :
  invoke w handleSavePrompt st = alert_only st alert_missing
  \/ (exists e, invoke w handleSavePrompt st = save_thrown st e)
  \/ (exists l data,
        net w (save_request l (view st)) = Resolved data
        /\ invoke w handleSavePrompt st = save_answered st l)
  \/ (exists l e,
        net w (save_request l (view st)) = Rejected e
        /\ invoke w handleSavePrompt st = save_refused st l e).
Proof.
  destruct (blank_dec (userPrompt (view st))) as [Hb|Hb].
  { left. now apply save_blank. }
  destruct (get_prop (metadata (view st)) "layout") as [l|e] eqn:Hl.
  2:{ right. left. exists e. now apply save_threw. }
  destruct (truthy l) eqn:Ht.
  2:{ left. now apply (save_no_layout w st l). }
  destruct (net w (save_request l (view st))) as [data|e] eqn:Hn.
  - right. right. left. exists l, data. split; [exact Hn|].
    now apply (save_resolved w st l data).
  - right. right. right. exists l, e. split; [exact Hn|].
    now apply save_rejected.
Qed.

(** The run of the file picker's handler with a file. *)
Lemma upload_run (f : File) (rest : list File) :
  run w (handleFileUpload (f :: rest)) st = upload_stored w st f.
Proof.
  unfold run, handleFileUpload, upload_stored, extension. cbn.
  destruct (String.eqb _ "pdf"); reflexivity.
Qed.

End Cases.

(** ** The page as a machine: what an interaction can leave behind *)

Section Machine.

Context {host : Host}.

Import JsStringFacts.

(** The store after an interaction is the store before, or differs from it
    in one of six ways. *)
Lemma final_cases (w : World) (st : Store) (a : Action) :
  let st' := final (invoke w (handler a) st) in
  st' = st
  \/ (exists t, st' = {| view := apply_update (view st) (SetSchemaJson t);
                         uploadedFile := uploadedFile st |})
  \/ (exists t, st' = {| view := apply_update (view st) (SetUserPrompt t);
                         uploadedFile := uploadedFile st |})
  \/ (exists v, st' = {| view := apply_update (view st) (SetPromptResult v);
                         uploadedFile := uploadedFile st |})
  \/ st' = {| view := apply_update (view st) (SetLoading false);
              uploadedFile := uploadedFile st |}
  \/ (exists data, successful_process st (w, a) = true
                   /\ st' = {| view := processed (view st) data;
                               uploadedFile := uploadedFile st |})
  \/ (exists f, st' = final (upload_stored w st f)).
Proof.
  intros st'. subst st'. destruct a; unfold invoke; cbn [handler].
  - right. left. exists text. reflexivity.
  - right. right. left. exists text. reflexivity.
  - destruct files as [|f rest]; [left; reflexivity|].
    do 6 right. exists f. now rewrite upload_run.
  - change (run w (handleProcessFile (view st)) st)
      with (invoke w handleProcessFile st).
    destruct (process_cases w st)
      as [(Hf & Hr)|[(f & Hf & Hb & Hr)|[(f & data & Hf & Hb & Hn & Hs & Hr)|
          [(f & data & text & Hf & Hb & Hn & Hs & Ht & Hr)|
           (f & e & Hf & Hb & Hr)]]]];
      rewrite Hr.
    + left. reflexivity.
    + left. reflexivity.
    + do 5 right. left. exists data. split; [|reflexivity].
      unfold successful_process. cbn [fst snd]. rewrite Hf.
      apply not_trim_false in Hb. rewrite Hb. cbn [negb andb].
      now rewrite Hn.
    + do 4 right. left. reflexivity.
    + do 4 right. left. reflexivity.
  - change (run w (handleTryPrompt (view st)) st)
      with (invoke w handleTryPrompt st).
    destruct (try_cases w st)
      as [(Hb & Hr)|[(data & v & Hb & Hn & Hp & Hr)|(e & Hb & Hr)]];
      rewrite Hr.
    + left. reflexivity.
    + do 3 right. left. exists v. reflexivity.
    + do 3 right. left. exists try_failed. reflexivity.
  - change (run w (handleSavePrompt (view st)) st)
      with (invoke w handleSavePrompt st).
    left. apply save_final.
Qed.

Lemma interact_loading (st : Store) (wa : World * Action) :
  loading (view st) = false -> loading (view (interact st wa)) = false.
Proof.
  destruct wa as [w a]. unfold interact. cbn [fst snd]. intros H.
  destruct (final_cases w st a)
    as [E|[(t & E)|[(t & E)|[(v & E)|[E|[(d & _ & E)|(f & E)]]]]]];
    rewrite E; try exact H; reflexivity || exact H.
Qed.

Lemma interact_file (st : Store) (wa : World * Action) :
  uploadedFile st <> None -> uploadedFile (interact st wa) <> None.
Proof.
  destruct wa as [w a]. unfold interact. cbn [fst snd]. intros H.
  destruct (final_cases w st a)
    as [E|[(t & E)|[(t & E)|[(v & E)|[E|[(d & _ & E)|(f & E)]]]]]];
    rewrite E; try exact H. discriminate.
Qed.

Lemma interact_results (st : Store) (wa : World * Action) :
  successful_process st wa = false ->
  results (view (interact st wa)) = results (view st).
Proof.
  destruct wa as [w a]. unfold interact. cbn [fst snd]. intros H.
  destruct (final_cases w st a)
    as [E|[(t & E)|[(t & E)|[(v & E)|[E|[(d & Hs & E)|(f & E)]]]]]];
    rewrite E; try reflexivity. congruence.
Qed.

Lemma interact_file_consistent (st : Store) (wa : World * Action) :
  file_consistent st -> file_consistent (interact st wa).
Proof.
  destruct wa as [w a]. unfold interact. cbn [fst snd]. intros H.
  destruct (final_cases w st a)
    as [E|[(t & E)|[(t & E)|[(v & E)|[E|[(d & _ & E)|(f & E)]]]]]];
    rewrite E; try exact H.
  unfold file_consistent, upload_stored. cbn.
  split; [reflexivity|].
  destruct (String.eqb (extension f) "pdf") eqn:Ee.
  - apply String.eqb_eq in Ee. split; [intros _; exact Ee|discriminate].
  - apply String.eqb_neq in Ee. split; [congruence|contradiction].
Qed.

Lemma initial_file_consistent : file_consistent initial_store.
Proof. split; reflexivity. Qed.

Lemma session_invariant (P : Store -> Prop) :
  (forall st wa, P st -> P (interact st wa)) ->
  forall l st, P st -> P (session st l).
Proof.
  intros Hstep. induction l as [|wa l IH]; intros st H; [exact H|].
  cbn [session]. apply IH. now apply Hstep.
Qed.

End Machine.

(** ** The file picker *)

Section FilePicker.

Context {host : Host}.

Lemma split_not_nil (sep : ascii) (s : string) : JsString.split sep s <> [].
Proof.
  destruct s as [|c r]; cbn; [discriminate|].
  destruct (Ascii.eqb c sep); [discriminate|].
  destruct (JsString.split sep r); discriminate.
Qed.

(** Joining what [split] returns gives the text back. *)
Lemma concat_split (sep : ascii) (s : string) :
  String.concat (String sep EmptyString) (JsString.split sep s) = s.
Proof.
  induction s as [|c r IH]; [reflexivity|].
  cbn [JsString.split]. destruct (Ascii.eqb c sep) eqn:E.
  - apply Ascii.eqb_eq in E. subst c.
    pose proof (split_not_nil sep r) as Hne.
    destruct (JsString.split sep r) as [|h t]; [contradiction|].
    rewrite <- IH. reflexivity.
  - destruct (JsString.split sep r) as [|h t] eqn:Er.
    + now contradiction (split_not_nil sep r).
    + rewrite <- IH. destruct t as [|x t']; reflexivity.
Qed.

Lemma split_free (sep : ascii) (s : string) :
  Forall (fun x => free_of sep x = true) (JsString.split sep s).
Proof.
  induction s as [|c r IH]; [repeat constructor|].
  cbn [JsString.split]. destruct (Ascii.eqb c sep) eqn:E.
  - constructor; [reflexivity|exact IH].
  - destruct (JsString.split sep r) as [|h t].
    + repeat constructor. cbn. now rewrite E.
    + inversion IH as [|? ? Hh Ht]; subst. constructor; [|exact Ht].
      cbn. now rewrite E, Hh.
Qed.

Lemma append_assoc (a b c : string) : (a ++ b) ++ c = a ++ b ++ c.
Proof. induction a as [|x a IH]; cbn; [reflexivity|now rewrite IH]. Qed.

Lemma concat_last (sep : string) (l : list string) :
  l <> [] ->
  String.concat sep l = last l EmptyString
  \/ exists base, String.concat sep l = base ++ sep ++ last l EmptyString.
Proof.
  induction l as [|x l IH]; [congruence|]. intros _.
  destruct l as [|y l']; [left; reflexivity|].
  change (String.concat sep (x :: y :: l'))
    with (x ++ sep ++ String.concat sep (y :: l')).
  change (last (x :: y :: l') EmptyString) with (last (y :: l') EmptyString).
  destruct IH as [E|(base & E)]; [discriminate| |]; rewrite E.
  - right. exists x. reflexivity.
  - right. exists (x ++ sep ++ base).
    now rewrite !append_assoc.
Qed.

(** X2. The file type the picker derives from a name is the lower-cased
    text after the last dot of the name, the whole name when it has no
    dot: that text has no dot in it, and the name is that text or ends
    with a dot followed by it. *)
Theorem extension_is_after_last_dot (f : File) :
  let ext := JsString.pop (JsString.split "." (file_name f)) in
  extension f = toLowerCase ext
  /\ free_of "." ext = true
  /\ (file_name f = ext \/ exists base, file_name f = base ++ "." ++ ext).
Proof.
  intros ext. subst ext. split; [reflexivity|]. unfold JsString.pop. split.
  - pose proof (split_free "." (file_name f)) as Hf.
    pose proof (split_not_nil "." (file_name f)) as Hne.
    rewrite Forall_forall in Hf. apply Hf.
    destruct (exists_last Hne) as (init & x & E). rewrite E.
    rewrite last_last. apply in_or_app. right. now left.
  - pose proof (concat_last "." _ (split_not_nil "." (file_name f))) as H.
    now rewrite concat_split in H.
Qed.

(** X1. Picking files stores the first of them in the ref, its extension
    as the file type, and a fresh object URL as the preview URL when the
    extension is [pdf], no URL otherwise; the other files of the list, and
    the other eight cells, play no part; the handler accepts any name,
    alerts nothing and sends nothing. *)
Theorem upload_with_file (w : World) (st : Store) (f : File)
    (rest : list File) :
  let r := invoke w (handler (SelectFile (f :: rest))) st in
  uploadedFile (final r) = Some f
  /\ fileType (view (final r)) = extension f
  /\ pdfUrl (view (final r))
     = (if String.eqb (extension f) "pdf" then Some (object_url w f) else None)
  /\ all_but_file (view (final r)) = all_but_file (view st)
  /\ requests (trace r) = [] /\ alerts (trace r) = []
  /\ uncaught r = None
  /\ r = invoke w (handler (SelectFile [f])) st.
Proof.
  intros r. subst r. unfold invoke. cbn [handler]. rewrite !upload_run.
  unfold upload_stored. cbn [final view uploadedFile trace uncaught].
  repeat split.
  - destruct (String.eqb (extension f) "pdf"); reflexivity.
  - destruct (String.eqb (extension f) "pdf"); reflexivity.
Qed.

(** X5. Rendered from the store the picker leaves after a file was
    picked, the preview is the [iframe] on the file's object URL when its
    extension is [pdf], and otherwise the icon with the upper-cased
    extension over the file name. *)
Theorem preview_after_upload (toUpperCase : string -> string) (w : World)
    (st : Store) (f : File) (rest : list File) :
  JsString.is_empty (object_url w f) = false ->
  preview toUpperCase (final (invoke w (handler (SelectFile (f :: rest))) st))
  = if String.eqb (extension f) "pdf" then PreviewFrame (object_url w f)
    else PreviewIcon (toUpperCase (extension f)) (file_name f).
Proof.
  intros Hu. unfold invoke. cbn [handler]. rewrite upload_run.
  unfold upload_stored, preview. cbn.
  destruct (String.eqb (extension f) "pdf"); [now rewrite Hu|reflexivity].
Qed.

End FilePicker.

(** ** What holds throughout a session *)

Section Throughout.

Context {host : Host}.

Import JsStringFacts.

(** X3. At every point of every session the file in the ref and the two
    cells that describe it agree: before any file is picked the type is
    empty and there is no preview URL; afterwards the type is the
    extension of the file last picked, and there is a preview URL exactly
    when that extension is [pdf]. *)
Theorem session_file_consistent (l : list (World * Action)) :
  file_consistent (session initial_store l).
Proof.
  apply (session_invariant file_consistent).
  - apply interact_file_consistent.
  - apply initial_file_consistent.
Qed.

(** X4. No interaction clears the ref: once a file is picked, a file stays
    picked for the rest of the session, and the process handler never
    raises the missing-file alert again. *)
Theorem file_stays_selected (st : Store) (l : list (World * Action))
    (w : World) :
  uploadedFile st <> None ->
  uploadedFile (session st l) <> None
  /\ ~ In alert_no_file
         (alerts (trace (invoke w handleProcessFile (session st l)))).
Proof.
  intros H.
  assert (Hs : uploadedFile (session st l) <> None).
  { revert H. apply (session_invariant (fun s => uploadedFile s <> None)).
    apply interact_file. }
  split; [exact Hs|].
  destruct (process_cases w (session st l))
    as [(Hf & Hr)|[(f & Hf & Hb & Hr)|[(f & data & Hf & Hb & Hn & Hd & Hr)|
        [(f & data & text & Hf & Hb & Hn & Hd & Ht & Hr)|
         (f & e & Hf & Hb & Hr)]]]];
    [contradiction| | | |]; rewrite Hr; cbn; intros Hin.
  - destruct Hin as [Hin|[]]. discriminate.
  - exact Hin.
  - destruct Hin as [Hin|[]]. discriminate.
  - destruct Hin as [Hin|[]]. discriminate.
Qed.

(** X9. Every interaction that finds the loading flag down leaves it down:
    between the interactions of a session the submit button is enabled and
    reads [Process File]. *)
Theorem session_loading_down (l : list (World * Action)) :
  let s := view (session initial_store l) in
  loading s = false
  /\ submit_disabled s = false
  /\ submit_label s = "Process File".
Proof.
  intros s. subst s.
  assert (H : loading (view (session initial_store l)) = false).
  { apply (session_invariant (fun st => loading (view st) = false)).
    - apply interact_loading.
    - reflexivity. }
  unfold submit_disabled, submit_label. rewrite H. repeat split.
Qed.

(** X12. The four result fields change in one way only: an interaction
    that is not a process call answered with success leaves all four as
    they were, and so does any run of such interactions. *)
Theorem results_change_only_on_success (st : Store)
    (l : list (World * Action)) :
  no_success st l = true ->
  results (view (session st l)) = results (view st).
Proof.
  revert st. induction l as [|wa l IH]; intros st H; [reflexivity|].
  cbn [no_success] in H. apply Bool.andb_true_iff in H. destruct H as [H1 H2].
  apply Bool.negb_true_iff in H1.
  cbn [session]. rewrite (IH _ H2). now apply interact_results.
Qed.

(** X15. Rendered from the store at any point of a session, the preview
    is the invitation to upload exactly as long as no file has been
    picked. *)
Theorem preview_invite_iff (toUpperCase : string -> string)
    (l : list (World * Action)) :
  preview toUpperCase (session initial_store l) = PreviewInvite
  <-> uploadedFile (session initial_store l) = None.
Proof.
  pose proof (session_file_consistent l) as H.
  unfold file_consistent in H. unfold preview.
  destruct (uploadedFile (session initial_store l)) as [f|].
  - split; [|discriminate].
    destruct (String.eqb _ "pdf"); [|discriminate].
    destruct (pdfUrl _) as [u|]; [|discriminate].
    destruct (JsString.is_empty u); discriminate.
  - destruct H as [Ht Hu]. rewrite Ht, Hu. cbn. split; reflexivity.
Qed.

(** X7. An interaction sends at most one request, and only to one of the
    three endpoints; typing and picking a file send none. *)
Theorem one_request_per_interaction (w : World) (st : Store) (a : Action) :
  let q := requests (trace (invoke w (handler a) st)) in
  (List.length q <= 1)%nat
  /\ Forall (fun r => In (url r) endpoints) q
  /\ (q <> [] -> a = ClickProcess \/ a = ClickTry \/ a = ClickSave).
Proof.
  intros q. subst q. destruct a; unfold invoke; cbn [handler].
  - cbn. repeat split; auto. congruence.
  - cbn. repeat split; auto. congruence.
  - destruct files as [|f rest].
    + cbn. repeat split; auto. congruence.
    + rewrite upload_run. unfold upload_stored. cbn [trace].
      destruct (String.eqb (extension f) "pdf"); cbn;
        repeat split; auto; congruence.
  - change (run w (handleProcessFile (view st)) st)
      with (invoke w handleProcessFile st).
    destruct (process_cases w st)
      as [(Hf & Hr)|[(f & Hf & Hb & Hr)|[(f & data & Hf & Hb & Hn & Hd & Hr)|
          [(f & data & text & Hf & Hb & Hn & Hd & Ht & Hr)|
           (f & e & Hf & Hb & Hr)]]]];
      rewrite Hr; cbn; repeat split; auto; repeat constructor; cbn; auto.
  - change (run w (handleTryPrompt (view st)) st)
      with (invoke w handleTryPrompt st).
    destruct (try_cases w st)
      as [(Hb & Hr)|[(data & v & Hb & Hn & Hp & Hr)|(e & Hb & Hr)]];
      rewrite Hr; cbn; repeat split; auto; repeat constructor; cbn; auto.
  - change (run w (handleSavePrompt (view st)) st)
      with (invoke w handleSavePrompt st).
    destruct (save_cases w st)
      as [Hr|[(e & Hr)|[(l & data & Hn & Hr)|(l & e & Hn & Hr)]]];
      rewrite Hr; cbn; repeat split; auto; repeat constructor; cbn; auto.
Qed.

(** X14. The file picked and the schema typed are what the next process
    call sends: one multipart request with the first picked file under
    [file] and the text under [schema_json], as typed. *)
Theorem picked_file_is_sent (st : Store) (f : File) (rest : list File)
    (text : string) (w1 w2 w3 : World) :
  ~ JsString.blank text ->
  requests
    (trace (invoke w3 handleProcessFile
              (session st [(w1, SelectFile (f :: rest));
                           (w2, ChangeSchema text)])))
  = [{| url := process_url;
        body := FormData [("file", FormFile f);
                          ("schema_json", FormText text)];
        headers := [("Content-Type", "multipart/form-data")] |}].
Proof.
  intros Hb. cbn [session]. unfold interact. cbn [fst snd].
  unfold invoke at 3. cbn [handler]. rewrite upload_run.
  set (st1 := final (upload_stored w1 st f)).
  unfold invoke at 2. cbn [handler].
  set (st2 := final (run w2 (set_state (SetSchemaJson text)) st1)).
  assert (Hf2 : uploadedFile st2 = Some f) by reflexivity.
  assert (Hs2 : schemaJson (view st2) = text) by reflexivity.
  destruct (process_cases w3 st2)
    as [(Hf & Hr)|[(f' & Hf & Hb' & Hr)|[(f' & data & Hf & Hb' & Hn & Hd & Hr)|
        [(f' & data & shown & Hf & Hb' & Hn & Hd & Ht & Hr)|
         (f' & e & Hf & Hb' & Hr)]]]].
  - congruence.
  - rewrite Hs2 in Hb'. contradiction.
  - rewrite Hr. rewrite Hf2 in Hf. injection Hf as <-. reflexivity.
  - rewrite Hr. rewrite Hf2 in Hf. injection Hf as <-. reflexivity.
  - rewrite Hr. rewrite Hf2 in Hf. injection Hf as <-. reflexivity.
Qed.

End Throughout.

(** ** More on the three calls *)

Section Calls.

Context {host : Host}.
Variable w : World.
Variable st : Store.

Import JsStringFacts.

(** X8. However a process call ends, it leaves the schema text, the
    prompt, the prompt result, the preview and the picked file as they
    were, and no exception leaves the handler. *)
Theorem process_keeps_form :
  let r := invoke w handleProcessFile st in
  form_cells (final r) = form_cells st /\ uncaught r = None.
Proof.
  intros r. subst r.
  destruct (process_cases w st)
    as [(Hf & Hr)|[(f & Hf & Hb & Hr)|[(f & data & Hf & Hb & Hn & Hd & Hr)|
        [(f & data & text & Hf & Hb & Hn & Hd & Ht & Hr)|
         (f & e & Hf & Hb & Hr)]]]];
    rewrite Hr; split; reflexivity.
Qed.

(** X13. When the body of the response is not an object (text that is not
    JSON, a number, a boolean, an array), or is an object with neither the
    success status nor a message, the alert reads [Error: undefined], and
    the four result fields stay. *)
Theorem process_body_without_message (f : File) (data : JsVal) :
  uploadedFile st = Some f ->
  ~ JsString.blank (schemaJson (view st)) ->
  net w (process_request (Some f) (schemaJson (view st))) = Resolved data ->
  not_an_object data = true
  \/ (declined data = true /\ field data "message" = JUndefined) ->
  let r := invoke w handleProcessFile st in
  alerts (trace r) = ["❌ Error: undefined"]
  /\ results (view (final r)) = results (view st).
Proof.
  intros Hf Hb Hn Hd r. subst r.
  assert (H : declined data = true /\ field data "message" = JUndefined).
  { destruct Hd as [Hd|Hd]; [|exact Hd].
    destruct data; try discriminate; split; reflexivity. }
  destruct H as [H1 H2].
  assert (Ht : to_string (field data "message") = inl "undefined")
    by now rewrite H2.
  rewrite (process_declined w st f data "undefined" Hf Hb Hn H1 Ht).
  split; reflexivity.
Qed.


(** X11. A try call that is answered stores the [result] of the response
    and changes nothing else; the result panel appears exactly when that
    result is truthy, so a response without [result], or with [0], [false],
    [null] or the empty string, shows no panel; no alert is raised. *)
Theorem try_success_display (data v : JsVal) :
  ~ JsString.blank (userPrompt (view st)) ->
  net w (try_request (view st)) = Resolved data ->
  get_prop data "result" = inl v ->
  let r := invoke w handleTryPrompt st in
  result_panel_shown (view (final r)) = truthy v
  /\ alerts (trace r) = []
  /\ all_but_promptResult (view (final r)) = all_but_promptResult (view st)
  /\ uploadedFile (final r) = uploadedFile st
  /\ uncaught r = None.
Proof.
  intros Hb Hn Hp r. subst r.
  rewrite (try_resolved w st data v Hb Hn Hp). repeat split.
Qed.

(** X10. A save call never changes the store and flushes no batch: it
    calls no setter, so there is nothing for React to render. When its
    request is answered, whatever the answer says, the alert is the one
    for success; when it is rejected the error is logged and the alert is
    the one for failure; when [metadata] is [null] or [undefined] and the
    prompt is not blank, the exception of [metadata.layout] leaves the
    handler and nothing is alerted. *)
Theorem save_outcomes :
  let r := invoke w handleSavePrompt st in
  final r = st /\ flushes (trace r) = [] /\ updates (trace r) = []
  /\ (forall l data,
        ~ JsString.blank (userPrompt (view st)) ->
        get_prop (metadata (view st)) "layout" = inl l -> truthy l = true ->
        net w (save_request l (view st)) = Resolved data ->
        alerts (trace r) = [alert_saved] /\ uncaught r = None)
  /\ (forall l e,
        ~ JsString.blank (userPrompt (view st)) ->
        get_prop (metadata (view st)) "layout" = inl l -> truthy l = true ->
        net w (save_request l (view st)) = Rejected e ->
        alerts (trace r) = [alert_save_failed]
        /\ In (EvConsoleError e) (trace r) /\ uncaught r = None)
  /\ (forall e,
        ~ JsString.blank (userPrompt (view st)) ->
        get_prop (metadata (view st)) "layout" = inr e ->
        alerts (trace r) = [] /\ uncaught r = Some e).
Proof.
  intros r. subst r. split; [apply save_final|].
  split.
  { destruct (save_cases w st)
      as [Hr|[(e & Hr)|[(l & data & Hn & Hr)|(l & e & Hn & Hr)]]];
      rewrite Hr; reflexivity. }
  split.
  { destruct (save_cases w st)
      as [Hr|[(e & Hr)|[(l & data & Hn & Hr)|(l & e & Hn & Hr)]]];
      rewrite Hr; reflexivity. }
  split; [|split].
  - intros l data Hb Hl Ht Hn.
    rewrite (save_resolved w st l data Hb Hl Ht Hn). split; reflexivity.
  - intros l e Hb Hl Ht Hn.
    rewrite (save_rejected w st l e Hb Hl Ht Hn). cbn. auto.
  - intros e Hb Hl. rewrite (save_threw w st e Hb Hl). split; reflexivity.
Qed.

End Calls.

(** ** Sample runs *)

Module Examples.

Import Sample Desk.
#[local] Existing Instance DemoHost.host.

Example trim_spaces : JsString.trim "  order_id  " = "order_id".
Proof. reflexivity. Qed.

(** An ideographic space in front, a no-break space and a line separator
    behind. *)
Example trim_unicode : JsString.trim "　order id  " = "order id".
Proof. reflexivity. Qed.

Example trim_keeps_inner : JsString.trim "a b" = "a b".
Proof. reflexivity. Qed.

Example extension_of_name :
  toLowerCase (JsString.pop (JsString.split "." "Invoice.final.PDF")) = "pdf".
Proof. reflexivity. Qed.

Example extension_without_dot :
  JsString.pop (JsString.split "." "README") = "README".
Proof. reflexivity. Qed.

Example array_to_string :
  to_string (JArr [JNum 1%N; JNull; JStr "a"; JArr [JBool true; JNum 20%N];
                   JObj [("a", JNum 1%N)]])
  = inl "1,,a,true,20,[object Object]".
Proof. reflexivity. Qed.

(** An item that cannot be turned into text makes the whole array throw. *)
Example array_with_shadowed_toString :
  to_string (JArr [JStr "a"; JObj [("toString", JNum 1%N)]])
  = inr cannot_convert.
Proof. reflexivity. Qed.

(** A message with a property [toString] of its own: the concatenation
    throws, and the alert is the one of the [catch]. *)
Example process_unprintable_message :
  alerts (trace (invoke (answer (Resolved shadowed_message))
                        handleProcessFile ready))
  = ["❌ API call failed: Cannot convert object to primitive value"].
Proof. reflexivity. Qed.

(** A message that is an array of texts. *)
Example process_array_message :
  alerts (trace (invoke
                   (answer (Resolved
                      (JObj [("status", JStr "error");
                             ("message", JArr [JStr "bad"; JStr "schema"])])))
                   handleProcessFile ready))
  = ["❌ Error: bad,schema"].
Proof. reflexivity. Qed.

(** Selecting a PDF stores the file, its type and a preview URL. *)
Example upload_pdf :
  invoke ok_world (handler (SelectFile [invoice])) initial_store
  = {| trace := [EvWriteRef invoice; EvSet (SetFileType "pdf");
                 EvCreateObjectURL invoice "blob:1";
                 EvSet (SetPdfUrl (Some "blob:1"));
                 EvFlush (apply_update
                             (apply_update initial_state (SetFileType "pdf"))
                             (SetPdfUrl (Some "blob:1")))];
       final := {| view := apply_update
                             (apply_update initial_state (SetFileType "pdf"))
                             (SetPdfUrl (Some "blob:1"));
                   uploadedFile := Some invoice |};
       uncaught := None |}.
Proof. reflexivity. Qed.

(** After the sample response the extracted JSON is the one it carried. *)
Example extracted_json :
  generatedJson (view done) = JObj [("order_id", JStr "123")].
Proof. reflexivity. Qed.

(** A response that is [null]: reading its [status] throws, the [catch]
    alerts, the flag goes down. *)
Example process_null_response :
  trace (invoke (answer (Resolved JNull)) handleProcessFile ready)
  = [EvSet (SetLoading true);
     EvPost (process_request (Some invoice) "{}");
     EvFlush (apply_update (view ready) (SetLoading true));
     EvConsoleError (type_error "null" "status");
     EvAlert "❌ API call failed: Cannot read properties of null (reading 'status')";
     EvSet (SetLoading false);
     EvFlush (view ready)].
Proof. reflexivity. Qed.

(** A session: pick a file, type a schema, process, type a prompt, save. *)
Example whole_session :
  let st := session initial_store
              [(ok_world, SelectFile [invoice]);
               (ok_world, ChangeSchema "{}");
               (ok_world, ClickProcess);
               (ok_world, ChangePrompt "summarize")] in
  requests (trace (invoke ok_world handleSavePrompt st))
  = [{| url := save_url;
        body := Json (JObj [("layout", JStr "inv-1");
                            ("prompt", JStr "summarize")]);
        headers := [] |}].
Proof. reflexivity. Qed.

End Examples.

(** ** The properties at work on sample data *)

Module Witness.

Import Sample JsStringFacts.
#[local] Existing Instance DemoHost.host.

Lemma process_success_atomic_witness :
  results (view (final (invoke (answer (Resolved Desk.full_data))
                               handleProcessFile ready)))
  = (JObj [("layout", JStr "inv-1")], JStr "# Invoice",
     JObj [("order_id", JStr "123")], JStr "What is the total?")
  /\ results (view (final (invoke ok_world handleProcessFile ready)))
     = (JObj [("layout", JStr "inv-1")], JStr "# Invoice",
        JObj [("order_id", JStr "123")], JStr "").
Proof.
  split.
  - refine (proj1 (proj2 (proj2
      (process_success_atomic (answer (Resolved Desk.full_data)) ready
         invoice Desk.full_data _ _ _ _)))).
    + reflexivity.
    + apply not_trim_false. reflexivity.
    + reflexivity.
    + reflexivity.
  - refine (proj1 (proj2 (proj2
      (process_success_atomic ok_world ready invoice ok_data _ _ _ _)))).
    + reflexivity.
    + apply not_trim_false. reflexivity.
    + reflexivity.
    + reflexivity.
Defined.

Lemma process_failure_keeps_results_witness :
  alerts (trace (invoke bad_world handleProcessFile ready))
  = ["❌ Error: bad schema"]
  /\ JsString.contains "❌ Error: bad schema" "bad schema"
  /\ alerts (trace (invoke (answer (Resolved Desk.coded_message))
                           handleProcessFile ready))
     = ["❌ Error: 422"]
  /\ alerts (trace (invoke (answer (Resolved Desk.shadowed_message))
                           handleProcessFile ready))
     = ["❌ API call failed: Cannot convert object to primitive value"]
  /\ results (view (final (invoke bad_world handleProcessFile ready)))
     = results (view ready)
  /\ alerts (trace (invoke down_world handleProcessFile ready))
     = ["❌ API call failed: Network Error"]
  /\ results (view (final (invoke down_world handleProcessFile ready)))
     = results (view ready).
Proof.
  assert (Hf : uploadedFile ready = Some invoice) by reflexivity.
  assert (Hb : ~ JsString.blank (schemaJson (view ready)))
    by (apply not_trim_false; reflexivity).
  destruct (process_failure_keeps_results bad_world ready invoice Hf Hb)
    as [H _].
  destruct (H bad_data eq_refl eq_refl)
    as (_ & H2 & _ & _ & _ & _ & _ & _ & _ & _ & H10 & _).
  destruct (process_failure_keeps_results
              (answer (Resolved Desk.coded_message)) ready invoice Hf Hb)
    as [Hc _].
  destruct (Hc Desk.coded_message eq_refl eq_refl)
    as (_ & _ & _ & _ & _ & H6 & _).
  destruct (process_failure_keeps_results
              (answer (Resolved Desk.shadowed_message)) ready invoice Hf Hb)
    as [Hs _].
  destruct (Hs Desk.shadowed_message eq_refl eq_refl)
    as (_ & _ & _ & _ & _ & _ & H7 & _).
  destruct (process_failure_keeps_results down_world ready invoice Hf Hb)
    as [_ H'].
  destruct (H' offline) as (H11 & H12 & _); [left; reflexivity|].
  split; [exact (proj1 (H2 "bad schema" eq_refl))|].
  split; [exact (proj2 (H2 "bad schema" eq_refl))|].
  split; [exact (H6 422%N eq_refl)|].
  split; [exact (H7 [("toString", JNum 1%N)] eq_refl)|].
  split; [exact H10|]. split; [exact H11|exact H12].
Defined.

Lemma process_preconditions_witness :
  trace (invoke ok_world handleProcessFile initial_store)
  = [EvAlert alert_no_file]
  /\ trace (invoke ok_world handleProcessFile blank_schema)
     = [EvAlert alert_no_schema].
Proof.
  split.
  - destruct (process_preconditions ok_world initial_store) as [H _].
    destruct H as [H _]; [reflexivity|exact H].
  - destruct (process_preconditions ok_world blank_schema) as [_ H].
    destruct H as [H _];
      [discriminate|apply not_trim_iff; reflexivity|exact H].
Defined.

Lemma precondition_failures_witness :
  trace (invoke ok_world handleProcessFile initial_store)
  = [EvAlert alert_no_file]
  /\ trace (invoke ok_world handleProcessFile blank_schema)
     = [EvAlert alert_no_schema]
  /\ trace (invoke ok_world handleTryPrompt ready) = []
  /\ trace (invoke ok_world handleSavePrompt ready) = [EvAlert alert_missing]
  /\ trace (invoke ok_world handleSavePrompt early) = [EvAlert alert_missing].
Proof.
  destruct (precondition_failures ok_world initial_store) as (H1 & _).
  destruct (precondition_failures ok_world blank_schema) as (_ & H2 & _).
  destruct (precondition_failures ok_world ready) as (_ & _ & H3 & H4 & _).
  destruct (precondition_failures ok_world early) as (_ & _ & _ & _ & H5).
  split; [apply H1; reflexivity|].
  split; [apply H2; [discriminate|apply not_trim_iff; reflexivity]|].
  split; [apply H3; apply not_trim_iff; reflexivity|].
  split; [apply H4; apply not_trim_iff; reflexivity|].
  apply (H5 JUndefined);
    [apply not_trim_false; reflexivity|reflexivity|reflexivity].
Defined.

(** C4, as stated, fails: the prompt is blank, the try handler's
    precondition fails, and no alert is raised. *)
Lemma try_blank_prompt_not_alerted :
  ~ (JsString.blank (userPrompt (view ready)) ->
     exists msg, In (EvAlert msg) (trace (invoke ok_world handleTryPrompt ready))).
Proof.
  intros H. destruct H as [msg Hin].
  - apply not_trim_iff. reflexivity.
  - exact Hin.
Qed.

(** Where [metadata] is [null], the save handler throws on
    [metadata.layout] before it can alert. *)
Example save_null_metadata_throws :
  invoke ok_world handleSavePrompt stuck
  = {| trace := []; final := stuck;
       uncaught := Some (type_error "null" "layout") |}.
Proof. reflexivity. Qed.

Lemma save_prompt_requests_witness :
  requests (trace (invoke ok_world handleSavePrompt early)) = []
  /\ requests (trace (invoke ok_world handleSavePrompt ready)) = []
  /\ (exists q,
        requests (trace (invoke ok_world handleSavePrompt asking)) = [q]
        /\ url q = save_url
        /\ body q = Json (JObj [("layout", JStr "inv-1");
                                ("prompt", JStr "summarize")])).
Proof.
  destruct (save_prompt_requests ok_world early) as (_ & H1 & _).
  destruct (save_prompt_requests ok_world ready) as (H2 & _).
  destruct (save_prompt_requests ok_world asking) as (_ & _ & _ & _ & H3 & _).
  split; [apply H1; reflexivity|].
  split; [apply H2; apply not_trim_iff; reflexivity|].
  apply H3; [apply not_trim_false; reflexivity|reflexivity].
Defined.

Lemma try_failure_is_inline_witness :
  promptResult (view (final (invoke down_world handleTryPrompt asking)))
  = JObj [("error", JStr "Failed to try prompt")]
  /\ alerts (trace (invoke down_world handleTryPrompt asking)) = [].
Proof.
  destruct (try_failure_is_inline down_world asking offline)
    as (H1 & _ & H3 & _).
  - apply not_trim_false. reflexivity.
  - left. reflexivity.
  - split; [exact H1|exact H3].
Defined.

Lemma try_prompt_request_and_result_witness :
  (exists q,
     requests (trace (invoke try_world handleTryPrompt asking)) = [q]
     /\ url q = try_url
     /\ body q = Json (JObj [("prompt", JStr "summarize");
                             ("structured_markdown", JStr "# Invoice")]))
  /\ promptResult (view (final (invoke try_world handleTryPrompt asking)))
     = JObj [("ok", JBool true)].
Proof.
  destruct (try_prompt_request_and_result try_world asking)
    as (_ & H2 & H3).
  split.
  - apply H2. apply not_trim_false. reflexivity.
  - refine (proj1 (H3 _ _ _ eq_refl eq_refl)). discriminate.
Defined.

Lemma process_flag_down_render_broken_witness :
  (exists mid last,
     trace (invoke (answer (Resolved Desk.null_json)) handleProcessFile ready)
     = ([EvSet (SetLoading true);
         EvPost (process_request (Some invoice) "{}");
         EvFlush (apply_update (view ready) (SetLoading true))]
        ++ mid ++ [EvSet (SetLoading false); EvFlush last])%list
     /\ loading last = false
     /\ exists e, render_error last = Some e /\ err_name e = "TypeError")
  /\ (exists e,
        render_error
          (view (final (invoke (answer (Resolved Desk.bare_success))
                               handleProcessFile ready)))
        = Some e /\ err_name e = "TypeError").
Proof.
  split.
  - destruct (process_flag_down_render_broken
                (answer (Resolved Desk.null_json)) ready invoice Desk.null_json)
      as (mid & last & H1 & _ & _ & H4 & H5).
    + reflexivity.
    + apply not_trim_false. reflexivity.
    + reflexivity.
    + reflexivity.
    + right. reflexivity.
    + exists mid, last. split; [exact H1|]. split; [exact H4|exact H5].
  - destruct (process_flag_down_render_broken
                (answer (Resolved Desk.bare_success)) ready invoice
                Desk.bare_success)
      as (mid & last & _ & _ & H3 & _ & H5).
    + reflexivity.
    + apply not_trim_false. reflexivity.
    + reflexivity.
    + reflexivity.
    + left. reflexivity.
    + rewrite H3. exact H5.
Defined.

Lemma process_success_suggested_prompt_witness :
  suggestedPrompt (view (final (invoke ok_world handleProcessFile ready)))
  = JStr ""
  /\ metadata (view (final (invoke ok_world handleProcessFile ready)))
     = JObj [("layout", JStr "inv-1")].
Proof.
  destruct (process_success_suggested_prompt ok_world ready invoice ok_data)
    as (H1 & _ & _ & _ & H5 & _).
  - reflexivity.
  - apply not_trim_false. reflexivity.
  - reflexivity.
  - reflexivity.
  - split; [apply H1; reflexivity|exact H5].
Defined.

End Witness.

(** ** The further properties at work on sample data *)

Module Checks.

Import Sample Desk JsStringFacts.
#[local] Existing Instance DemoHost.host.

Lemma preview_after_upload_witness :
  preview upper (final (invoke ok_world (handler (SelectFile [invoice]))
                               initial_store))
  = PreviewFrame "blob:1"
  /\ preview upper (final (invoke ok_world (handler (SelectFile [report]))
                                  initial_store))
     = PreviewIcon "DOCX" "Q3.report.DOCX".
Proof.
  split.
  - apply (preview_after_upload upper ok_world initial_store invoice []).
    reflexivity.
  - apply (preview_after_upload upper ok_world initial_store report []).
    reflexivity.
Defined.

Lemma file_stays_selected_witness :
  uploadedFile (session ready [(ok_world, ClickProcess); (down_world, ClickTry)])
  <> None.
Proof.
  refine (proj1 (file_stays_selected ready
                   [(ok_world, ClickProcess); (down_world, ClickTry)]
                   ok_world _)).
  discriminate.
Defined.

Lemma results_change_only_on_success_witness :
  results (view (session done [(bad_world, ClickProcess);
                               (down_world, ClickTry);
                               (ok_world, SelectFile [report])]))
  = results (view done).
Proof.
  apply results_change_only_on_success. reflexivity.
Defined.

Lemma picked_file_is_sent_witness :
  requests
    (trace (invoke ok_world handleProcessFile
              (session initial_store [(ok_world, SelectFile [invoice]);
                                      (ok_world, ChangeSchema " {} ")])))
  = [{| url := process_url;
        body := FormData [("file", FormFile invoice);
                          ("schema_json", FormText " {} ")];
        headers := [("Content-Type", "multipart/form-data")] |}].
Proof.
  apply picked_file_is_sent. apply not_trim_false. reflexivity.
Defined.

Lemma process_body_without_message_witness :
  alerts (trace (invoke (answer (Resolved html_page)) handleProcessFile ready))
  = ["❌ Error: undefined"].
Proof.
  refine (proj1 (process_body_without_message
                   (answer (Resolved html_page)) ready invoice html_page
                   _ _ _ _)).
  - reflexivity.
  - apply not_trim_false. reflexivity.
  - reflexivity.
  - left. reflexivity.
Defined.


Lemma try_success_display_witness :
  result_panel_shown (view (final (invoke zero_result handleTryPrompt asking)))
  = false.
Proof.
  refine (proj1 (try_success_display zero_result asking
                   (JObj [("result", JNum 0%N)]) (JNum 0%N) _ _ _)).
  - apply not_trim_false. reflexivity.
  - reflexivity.
  - reflexivity.
Defined.

Lemma save_outcomes_witness :
  alerts (trace (invoke grumbling handleSavePrompt asking)) = [alert_saved]
  /\ uncaught (invoke ok_world handleSavePrompt stuck)
     = Some (type_error "null" "layout").
Proof.
  destruct (save_outcomes grumbling asking) as (_ & _ & _ & H & _).
  destruct (save_outcomes ok_world stuck) as (_ & _ & _ & _ & _ & H').
  split.
  - refine (proj1 (H (JStr "inv-1") (JObj [("status", JStr "error")])
                     _ _ _ _)).
    + apply not_trim_false. reflexivity.
    + reflexivity.
    + reflexivity.
    + reflexivity.
  - refine (proj2 (H' (type_error "null" "layout") _ _)).
    + apply not_trim_false. reflexivity.
    + reflexivity.
Defined.

End Checks.
